(** * pysqream: the SQream native Python connector (dbapi.py)

    A shallow embedding of the driver's calendar codec, columnar codec,
    transport framing and statement engine, with the properties of its
    specification proved over it.

    Conventions of the embedding.
    - A Python [int] is a [Z]; [//] and [%] are [Z.div] and [Z.modulo]
      (both round towards minus infinity, as Python's do); [>>], [<<] and
      [&] are [Z.shiftr], [Z.shiftl] and [Z.land].
    - A byte is a [Z] in [0, 256); [bytes], [bytearray] and the contents
      of an [mmap] are [list Z].
    - A Python [str] is the list of its code points.
    - A function that may raise returns a [result]; a method of a class
      with mutable state is a function from the state to a [result] and
      the state reached, which is kept when the method raises. *)

From Stdlib Require Import ZArith List Lia Bool String Ascii DecimalString.
From stdpp Require Import base gmap strings.
Import ListNotations.
Open Scope Z_scope.
Set Warnings "-register-all".

(** ** Exceptions *)

Inductive exn : Type :=
| Exception_ (msg : string)
| ProgrammingError (msg : string)
| ConnectionRefusedError (msg : string)
| ValueError
| TypeError
| KeyError
| IndexError
| AttributeError
| UnboundLocalError
| OverflowError
| struct_error
| UnicodeEncodeError
| UnicodeDecodeError
| LookupError
| JSONDecodeError
| OSError
| socket_timeout
| LoopBound.   (* a loop cut at its bound; no run of the driver reaches it *)

Inductive result (A : Type) : Type :=
| Ok (a : A)
| Raise (e : exn).
Arguments Ok {A} a.
Arguments Raise {A} e.

Definition bind {A B} (r : result A) (k : A -> result B) : result B :=
  match r with
  | Ok a => k a
  | Raise e => Raise e
  end.

Declare Scope result_scope.
Delimit Scope result_scope with result.
Notation "x <- c1 ;; c2" := (bind c1 (fun x => c2))
  (at level 60, c1 at next level, right associativity) : result_scope.
Open Scope result_scope.

(** ** Date and datetime conversion functions *)

Module Calendar.

(** *** Python's [datetime.date] and [datetime.datetime]

    The constructors of the standard library, which check their
    arguments and raise [ValueError] outside the calendar. *)

Record date : Type := mkdate { year : Z; month : Z; day : Z }.

Record datetime : Type := mkdatetime {
  dt_year : Z; dt_month : Z; dt_day : Z;
  dt_hour : Z; dt_minute : Z; dt_second : Z; dt_microsecond : Z
}.

Definition MINYEAR : Z := 1.
Definition MAXYEAR : Z := 9999.

Definition is_leap (y : Z) : bool :=
  (y mod 4 =? 0) && (negb (y mod 100 =? 0) || (y mod 400 =? 0)).

Definition days_in_month (y m : Z) : Z :=
  if m =? 2 then (if is_leap y then 29 else 28)
  else if (m =? 4) || (m =? 6) || (m =? 9) || (m =? 11) then 30
  else 31.

Definition valid_ymd (y m d : Z) : bool :=
  (MINYEAR <=? y) && (y <=? MAXYEAR) &&
  (1 <=? m) && (m <=? 12) &&
  (1 <=? d) && (d <=? days_in_month y m).

Definition py_date (y m d : Z) : result date :=
  if valid_ymd y m d then Ok (mkdate y m d) else Raise ValueError.

Definition py_datetime (y m d hour minute second microsecond : Z)
  : result datetime :=
  if valid_ymd y m d
     && (0 <=? hour) && (hour <? 24)
     && (0 <=? minute) && (minute <? 60)
     && (0 <=? second) && (second <? 60)
     && (0 <=? microsecond) && (microsecond <? 1000000)
  then Ok (mkdatetime y m d hour minute second microsecond)
  else Raise ValueError.

(** A date of the Gregorian calendar: a month of the year and a day of
    that month. *)
Definition gregorian (y m d : Z) : Prop :=
  1 <= m <= 12 /\ 1 <= d <= days_in_month y m.

(** *** dbapi.py, lines 88-146 *)

Definition sq_date_to_tuple {A : Type}
    (date_convert_func : Z -> Z -> Z -> result A)
    (sqream_date : option Z) : result (option A) :=
  match sqream_date with
  | None => Ok None
  | Some sqream_date =>
    let year := (10000 * sqream_date + 14780) / 3652425 in
    let intermed_1 := 365 * year + year / 4 - year / 100 + year / 400 in
    let intermed_2 := sqream_date - intermed_1 in
    let '(year, intermed_2) :=
      if intermed_2 <? 0
      then (year - 1,
            sqream_date - (365 * (year - 1) + (year - 1) / 4
                           - (year - 1) / 100 + (year - 1) / 400))
      else (year, intermed_2) in
    let intermed_3 := (100 * intermed_2 + 52) / 3060 in
    let year := year + (intermed_3 + 2) / 12 in
    let month := (intermed_3 + 2) mod 12 + 1 in
    let day := intermed_2 - (intermed_3 * 306 + 5) / 10 + 1 in
    r <- date_convert_func year month day ;;
    Ok (Some r)
  end.

Definition sq_datetime_to_tuple {A : Type}
    (dt_convert_func : Z -> Z -> Z -> Z -> Z -> Z -> Z -> result A)
    (sqream_datetime : option Z) : result (option A) :=
  match sqream_datetime with
  | None => Ok None
  | Some sqream_datetime =>
    let date_part := Z.shiftr sqream_datetime 32 in
    let time_part := Z.land sqream_datetime 0xffffffff in
    date_part <- sq_date_to_tuple py_date (Some date_part) ;;
    match date_part with
    | None => Raise AttributeError
    | Some date_part =>
      let msec := time_part mod 1000 in
      let sec := (time_part / 1000) mod 60 in
      let mins := (time_part / 1000 / 60) mod 60 in
      let hour := time_part / 1000 / 60 / 60 in
      r <- dt_convert_func (year date_part) (month date_part) (day date_part)
                           hour mins sec msec ;;
      Ok (Some r)
    end
  end.

Definition date_tuple_to_int (year month day : Z) : Z :=
  let mth := (month + 9) mod 12 in
  let yr := year - mth / 10 in
  365 * yr + yr / 4 - yr / 100 + yr / 400 + (mth * 306 + 5) / 10 + (day - 1).

Definition datetime_tuple_to_long
    (year month day hour minute second msecond : Z) : Z :=
  let mth := (month + 9) mod 12 in
  let yr := year - mth / 10 in
  let date_int :=
    365 * yr + yr / 4 - yr / 100 + yr / 400 + (mth * 306 + 5) / 10 + (day - 1) in
  let time_int :=
    hour * 3600 * 1000 + minute * 60 * 1000 + second * 1000 + msecond / 1000 in
  Z.shiftl date_int 32 + time_int.

(** The days before the first of March of year [yr], and the days from
    the first of March to the first of month [mth], March being 0: the
    two parts of the day count. *)
Definition days_before (yr : Z) : Z := 365 * yr + yr / 4 - yr / 100 + yr / 400.
Definition month_offset (mth : Z) : Z := (mth * 306 + 5) / 10.

(** The converters that return the components as they are. *)
Definition as_triple (y m d : Z) : result (Z * Z * Z) := Ok (y, m, d).

Definition as_tuple7 (y m d h mi s ms : Z)
  : result (Z * Z * Z * Z * Z * Z * Z) := Ok (y, m, d, h, mi, s, ms).

End Calendar.

(** ** Python values and the operations of the language the driver uses *)

Module Py.

Inductive pyval : Type :=
| PNone
| PBool (b : bool)
| PInt (n : Z)
| PFloat (bits : Z)
| PStr (s : list Z)
| PBytes (b : list Z)
| PDate (d : Calendar.date)
| PDateTime (d : Calendar.datetime)
| PList (l : list pyval)
| PTuple (l : list pyval)
| PDict (d : list (pyval * pyval))
| PArray (fmt : string) (items : list pyval).

(** [PFloat] holds the IEEE-754 binary64 pattern of a [float]; [PArray]
    is a [memoryview] seen through a [struct] format letter. *)

(** A literal of the source as a Python [str]. *)
Definition str (s : string) : list Z :=
  map (fun a => Z.of_N (N_of_ascii a)) (list_ascii_of_string s).

(** A literal that holds double quotes, written with ['] in their place. *)
Definition lit (s : string) : list Z :=
  map (fun c => if c =? 39 then 34 else c) (str s).

Fixpoint pystr_eqb (a b : list Z) : bool :=
  match a, b with
  | [], [] => true
  | x :: a', y :: b' => (x =? y) && pystr_eqb a' b'
  | _, _ => false
  end.

(** The text of a message, from a [str] of characters below 256. *)
Definition to_string (s : list Z) : string :=
  string_of_list_ascii (map (fun c => ascii_of_N (Z.to_N c)) s).

(** [str(n)] of an [int], as a string of the development and as a [str]. *)
Definition decimal (n : Z) : string := NilZero.string_of_int (Z.to_int n).
Definition str_of_int (n : Z) : list Z := str (decimal n).

Definition is_None (v : pyval) : bool :=
  match v with PNone => true | _ => false end.

Definition len {A} (l : list A) : Z := Z.of_nat (length l).

(** *** Truth value, [len], iteration *)

Definition py_truthy (v : pyval) : bool :=
  match v with
  | PNone => false
  | PBool b => b
  | PInt n => negb (n =? 0)
  | PFloat bits => negb ((bits =? 0) || (bits =? 2 ^ 63))
  | PStr s => negb (len s =? 0)
  | PBytes b => negb (len b =? 0)
  | PDate _ | PDateTime _ => true
  | PList l | PTuple l => negb (len l =? 0)
  | PDict d => negb (len d =? 0)
  | PArray _ items => negb (len items =? 0)
  end.

Definition py_len (v : pyval) : result Z :=
  match v with
  | PStr s => Ok (len s)
  | PBytes b => Ok (len b)
  | PList l | PTuple l => Ok (len l)
  | PDict d => Ok (len d)
  | PArray _ items => Ok (len items)
  | _ => Raise TypeError
  end.

Definition py_iter (v : pyval) : result (list pyval) :=
  match v with
  | PStr s => Ok (map (fun c => PStr [c]) s)
  | PBytes b => Ok (map PInt b)
  | PList l | PTuple l => Ok l
  | PDict d => Ok (map fst d)
  | PArray _ items => Ok items
  | _ => Raise TypeError
  end.

(** An [int] in the sense of [isinstance(v, int)]: [bool] is a subclass. *)
Definition as_int (v : pyval) : option Z :=
  match v with
  | PInt n => Some n
  | PBool b => Some (if b then 1 else 0)
  | _ => None
  end.

Definition isinstance_int (v : pyval) : bool :=
  match as_int v with Some _ => true | None => false end.

(** *** Slices and subscripts *)

(** The bound [i] of a slice of a sequence of length [n], as Python
    normalises it: counted from the end when negative, then clamped. *)
Definition slice_bound (n i : Z) : nat :=
  Z.to_nat (Z.max 0 (Z.min n (if i <? 0 then i + n else i))).

(** [l[a:b]], a bound that is [None] standing for the respective end. *)
Definition slice {A} (l : list A) (a b : option Z) : list A :=
  let n := len l in
  let lo := match a with Some a => slice_bound n a | None => 0%nat end in
  let hi := match b with Some b => slice_bound n b | None => length l end in
  firstn (hi - lo) (skipn lo l).

Definition py_slice (v : pyval) (a b : option Z) : result pyval :=
  match v with
  | PStr s => Ok (PStr (slice s a b))
  | PBytes s => Ok (PBytes (slice s a b))
  | PList l => Ok (PList (slice l a b))
  | PTuple l => Ok (PTuple (slice l a b))
  | PArray f items => Ok (PArray f (slice items a b))
  | _ => Raise TypeError
  end.

(** [l[i]] of a sequence. *)
Definition index {A} (l : list A) (i : Z) : result A :=
  let j := if i <? 0 then i + len l else i in
  if (j <? 0) || (len l <=? j) then Raise IndexError
  else match nth_error l (Z.to_nat j) with
       | Some x => Ok x
       | None => Raise IndexError
       end.

(** Equality of the keys a dictionary of the driver is looked up by. *)
Definition key_eqb (a b : pyval) : bool :=
  match a, b with
  | PStr x, PStr y => pystr_eqb x y
  | PNone, PNone => true
  | _, _ =>
    match as_int a, as_int b with
    | Some x, Some y => x =? y
    | _, _ => false
    end
  end.

Fixpoint dict_lookup (d : list (pyval * pyval)) (k : pyval) : option pyval :=
  match d with
  | [] => None
  | (k', v) :: d' => if key_eqb k' k then Some v else dict_lookup d' k
  end.

(** [v[k]] *)
Definition py_getitem (v k : pyval) : result pyval :=
  match v with
  | PDict d =>
    match dict_lookup d k with Some x => Ok x | None => Raise KeyError end
  | PStr s =>
    match as_int k with
    | Some i => c <- index s i ;; Ok (PStr [c])
    | None => Raise TypeError
    end
  | PBytes s =>
    match as_int k with
    | Some i => c <- index s i ;; Ok (PInt c)
    | None => Raise TypeError
    end
  | PList l | PTuple l | PArray _ l =>
    match as_int k with
    | Some i => index l i
    | None => Raise TypeError
    end
  | _ => Raise TypeError
  end.

(** [v.get(k, default)], a method of [dict] only. *)
Definition py_get (v k default : pyval) : result pyval :=
  match v with
  | PDict d =>
    Ok (match dict_lookup d k with Some x => x | None => default end)
  | _ => Raise AttributeError
  end.

(** [a or b] *)
Definition py_or (a b : pyval) : pyval := if py_truthy a then a else b.

(** *** Text *)

Fixpoint is_prefix (p s : list Z) : bool :=
  match p, s with
  | [], _ => true
  | x :: p', y :: s' => (x =? y) && is_prefix p' s'
  | _ :: _, [] => false
  end.

(** [sub in s] of two [str]. *)
Fixpoint str_in (sub s : list Z) : bool :=
  is_prefix sub s ||
  match s with
  | [] => false
  | _ :: s' => str_in sub s'
  end.

(** The characters [str.rstrip()] removes: those [str.isspace] holds of. *)
Definition py_isspace (c : Z) : bool :=
  ((0x09 <=? c) && (c <=? 0x0D)) || ((0x1C <=? c) && (c <=? 0x20))
  || (c =? 0x85) || (c =? 0xA0) || (c =? 0x1680)
  || ((0x2000 <=? c) && (c <=? 0x200A))
  || (c =? 0x2028) || (c =? 0x2029) || (c =? 0x202F) || (c =? 0x205F)
  || (c =? 0x3000).

Fixpoint drop_while {A} (p : A -> bool) (l : list A) : list A :=
  match l with
  | [] => []
  | x :: l' => if p x then drop_while p l' else l
  end.

Definition rstrip_by (p : Z -> bool) (s : list Z) : list Z :=
  rev (drop_while p (rev s)).

(** [b.ljust(width, b' ')] *)
Definition ljust (b : list Z) (width : Z) : list Z :=
  b ++ repeat 0x20 (Z.to_nat (width - len b)).

Definition encode_ascii (s : list Z) : result (list Z) :=
  if forallb (fun c => (0 <=? c) && (c <? 128)) s then Ok s
  else Raise UnicodeEncodeError.

Definition decode_ascii (b : list Z) : result (list Z) :=
  if forallb (fun c => (0 <=? c) && (c <? 128)) b then Ok b
  else Raise UnicodeDecodeError.

Definition utf8_char (c : Z) : result (list Z) :=
  if (c <? 0) then Raise UnicodeEncodeError
  else if c <? 0x80 then Ok [c]
  else if c <? 0x800 then
    Ok [Z.lor 0xC0 (Z.shiftr c 6); Z.lor 0x80 (Z.land c 0x3F)]
  else if c <? 0x10000 then
    if (0xD800 <=? c) && (c <=? 0xDFFF) then Raise UnicodeEncodeError
    else Ok [Z.lor 0xE0 (Z.shiftr c 12);
             Z.lor 0x80 (Z.land (Z.shiftr c 6) 0x3F);
             Z.lor 0x80 (Z.land c 0x3F)]
  else if c <? 0x110000 then
    Ok [Z.lor 0xF0 (Z.shiftr c 18);
        Z.lor 0x80 (Z.land (Z.shiftr c 12) 0x3F);
        Z.lor 0x80 (Z.land (Z.shiftr c 6) 0x3F);
        Z.lor 0x80 (Z.land c 0x3F)]
  else Raise UnicodeEncodeError.

Fixpoint encode_utf8 (s : list Z) : result (list Z) :=
  match s with
  | [] => Ok []
  | c :: s' =>
    b <- utf8_char c ;;
    r <- encode_utf8 s' ;;
    Ok (b ++ r)
  end.

Definition between (lo hi b : Z) : bool := (lo <=? b) && (b <=? hi).
Definition cont (b : Z) : Z := Z.land b 0x3F.

(** The strict decoder: no overlong form, no surrogate, nothing above
    U+10FFFF. *)
Fixpoint decode_utf8 (b : list Z) : result (list Z) :=
  match b with
  | [] => Ok []
  | b0 :: r0 =>
    if between 0 0x7F b0 then
      s <- decode_utf8 r0 ;; Ok (b0 :: s)
    else
      match r0 with
      | [] => Raise UnicodeDecodeError
      | b1 :: r1 =>
        if between 0xC2 0xDF b0 && between 0x80 0xBF b1 then
          s <- decode_utf8 r1 ;;
          Ok (Z.shiftl (Z.land b0 0x1F) 6 + cont b1 :: s)
        else
          match r1 with
          | [] => Raise UnicodeDecodeError
          | b2 :: r2 =>
            if between 0xE0 0xEF b0
               && between (if b0 =? 0xE0 then 0xA0 else 0x80)
                          (if b0 =? 0xED then 0x9F else 0xBF) b1
               && between 0x80 0xBF b2 then
              s <- decode_utf8 r2 ;;
              Ok (Z.shiftl (Z.land b0 0x0F) 12 + Z.shiftl (cont b1) 6
                  + cont b2 :: s)
            else
              match r2 with
              | [] => Raise UnicodeDecodeError
              | b3 :: r3 =>
                if between 0xF0 0xF4 b0
                   && between (if b0 =? 0xF0 then 0x90 else 0x80)
                              (if b0 =? 0xF4 then 0x8F else 0xBF) b1
                   && between 0x80 0xBF b2 && between 0x80 0xBF b3 then
                  s <- decode_utf8 r3 ;;
                  Ok (Z.shiftl (Z.land b0 0x07) 18 + Z.shiftl (cont b1) 12
                      + Z.shiftl (cont b2) 6 + cont b3 :: s)
                else Raise UnicodeDecodeError
              end
          end
      end
  end.

End Py.

(** ** State and exceptions

    A method is a function from the state of its object to what it
    returns or raises and the state it leaves. *)

Definition M (S A : Type) : Type := S -> result A * S.

Definition ret {S A} (a : A) : M S A := fun s => (Ok a, s).
Definition raise {S A} (e : exn) : M S A := fun s => (Raise e, s).

Definition mbind_ {S A B} (m : M S A) (k : A -> M S B) : M S B :=
  fun s =>
    match m s with
    | (Ok a, s') => k a s'
    | (Raise e, s') => (Raise e, s')
    end.

Definition get {S} : M S S := fun s => (Ok s, s).
Definition put {S} (s : S) : M S unit := fun _ => (Ok tt, s).
Definition modify {S} (f : S -> S) : M S unit := fun s => (Ok tt, f s).
Definition gets {S A} (f : S -> A) : M S A := fun s => (Ok (f s), s).

(** A computation that does not touch the state. *)
Definition pure_ {S A} (r : result A) : M S A := fun s => (r, s).

(** A method of a part of the state, run on the whole. *)
Definition zoom {S T A} (get_part : S -> T) (set_part : T -> S -> S)
    (m : M T A) : M S A :=
  fun s => let '(r, t) := m (get_part s) in (r, set_part t s).

(** [try: m except: handler], the handler choosing what it catches. *)
Definition try_except {S A} (m : M S A) (handler : exn -> option (M S A))
  : M S A :=
  fun s =>
    match m s with
    | (Ok a, s') => (Ok a, s')
    | (Raise e, s') =>
      match handler e with
      | Some h => h s'
      | None => (Raise e, s')
      end
    end.

Declare Scope state_scope.
Delimit Scope state_scope with state.
Notation "x <~ c1 ;; c2" := (mbind_ c1 (fun x => c2))
  (at level 60, c1 at next level, right associativity) : state_scope.
Notation "c1 ;;; c2" := (mbind_ c1 (fun _ => c2))
  (at level 60, right associativity) : state_scope.
Open Scope state_scope.

(** ** What the driver takes from its platform and libraries

    The functions of the standard library the driver calls and this
    development does not define: the JSON codec, [str()] of values other
    than text and integers, text codecs other than ASCII and UTF-8, the
    conversions of floating-point numbers, [+] and [*] on operands that
    are not both integers; the byte order of the machine; and what the
    network answers when a socket connects. *)

Inductive byteorder : Type := LittleEndian | BigEndian.

Inductive connect_outcome : Type :=
| Connected (peer : list Z)
| Refused
| ResetByPeer
| TimedOut
| SSLUnknownProtocol
| Failed.

Record library : Type := {
  byte_order : byteorder;
  json_loads : list Z -> result Py.pyval;
  json_dumps : Py.pyval -> result (list Z);
  str_other : Py.pyval -> list Z;
  decode_other : list Z -> list Z -> result (list Z);
  float_of_int : Z -> result Z;
  double_to_single : Z -> result Z;
  single_to_double : Z -> Z;
  binop_other : string -> Py.pyval -> Py.pyval -> result Py.pyval;
  socket_connect : Py.pyval -> Py.pyval -> bool -> connect_outcome
}.

(** ** [struct] and [memoryview]: packing and unpacking in native mode *)

Module Struct.
Import Py.

Fixpoint le_bytes (n : nat) (v : Z) : list Z :=
  match n with
  | O => []
  | S k => v mod 256 :: le_bytes k (v / 256)
  end.

Definition to_bytes (bo : byteorder) (n : nat) (v : Z) : list Z :=
  match bo with
  | LittleEndian => le_bytes n v
  | BigEndian => rev (le_bytes n v)
  end.

Fixpoint le_value (b : list Z) : Z :=
  match b with
  | [] => 0
  | x :: r => x + 256 * le_value r
  end.

Definition from_bytes (bo : byteorder) (signed : bool) (b : list Z) : Z :=
  let u := le_value (match bo with LittleEndian => b | BigEndian => rev b end) in
  let bits := 8 * len b in
  if signed && (2 ^ (bits - 1) <=? u) then u - 2 ^ bits else u.

(** The size in bytes of an item of a format letter. *)
Definition calcsize (fmt : string) : option nat :=
  if String.eqb fmt "?" then Some 1%nat
  else if String.eqb fmt "b" then Some 1%nat
  else if String.eqb fmt "B" then Some 1%nat
  else if String.eqb fmt "h" then Some 2%nat
  else if String.eqb fmt "i" then Some 4%nat
  else if String.eqb fmt "q" then Some 8%nat
  else if String.eqb fmt "f" then Some 4%nat
  else if String.eqb fmt "d" then Some 8%nat
  else None.

(** The integer letters: whether signed. *)
Definition signedness (fmt : string) : option bool :=
  if String.eqb fmt "b" then Some true
  else if String.eqb fmt "B" then Some false
  else if String.eqb fmt "h" then Some true
  else if String.eqb fmt "i" then Some true
  else if String.eqb fmt "q" then Some true
  else None.

Definition in_range (signed : bool) (n : nat) (v : Z) : bool :=
  let bits := 8 * Z.of_nat n in
  if signed then (- 2 ^ (bits - 1) <=? v) && (v <? 2 ^ (bits - 1))
  else (0 <=? v) && (v <? 2 ^ bits).

(** Splitting a buffer into items of [n] bytes; [fuel] bounds the number
    of items and is the length of the buffer where it is used. *)
Fixpoint chunks (fuel : nat) (n : nat) (b : list Z) : list (list Z) :=
  match fuel with
  | O => []
  | S k =>
    match b with
    | [] => []
    | _ => firstn n b :: chunks k n (skipn n b)
    end
  end.

Fixpoint traverse {A B} (f : A -> result B) (l : list A) : result (list B) :=
  match l with
  | [] => Ok []
  | x :: l' =>
    y <- f x ;;
    r <- traverse f l' ;;
    Ok (y :: r)
  end.

Section WithLibrary.
Context (L : library).

(** One value packed under a format letter. *)
Definition pack_item (fmt : string) (v : pyval) : result (list Z) :=
  if String.eqb fmt "?" then Ok [if py_truthy v then 1 else 0]
  else
    match calcsize fmt, signedness fmt with
    | Some n, Some signed =>
      match as_int v with
      | Some x =>
        if in_range signed n x then Ok (to_bytes (byte_order L) n x)
        else Raise struct_error
      | None => Raise struct_error
      end
    | Some n, None =>
      d <- match v with
           | PFloat bits => Ok bits
           | _ =>
             match as_int v with
             | Some x => float_of_int L x
             | None => Raise struct_error
             end
           end ;;
      if String.eqb fmt "d" then Ok (to_bytes (byte_order L) 8 d)
      else
        s <- double_to_single L d ;;
        Ok (to_bytes (byte_order L) 4 s)
    | None, _ => Raise struct_error
    end.

(** [pack(f'{len(values)}{fmt}', *values)] *)
Definition pack (fmt : string) (values : list pyval) : result (list Z) :=
  r <- traverse (pack_item fmt) values ;;
  Ok (concat r).

(** One item read under a format letter. *)
Definition unpack_item (fmt : string) (b : list Z) : pyval :=
  if String.eqb fmt "?" then PBool (negb (le_value b =? 0))
  else
    match signedness fmt with
    | Some signed => PInt (from_bytes (byte_order L) signed b)
    | None =>
      if String.eqb fmt "d" then PFloat (from_bytes (byte_order L) false b)
      else PFloat (single_to_double L (from_bytes (byte_order L) false b))
    end.

(** [unpack(fmt, b)[0]] of a single item. *)
Definition unpack (fmt : string) (b : list Z) : result pyval :=
  match calcsize fmt with
  | Some n =>
    if len b =? Z.of_nat n then Ok (unpack_item fmt b) else Raise struct_error
  | None => Raise struct_error
  end.

(** [memoryview(b).cast(fmt)] *)
Definition cast (fmt : string) (b : list Z) : result pyval :=
  match calcsize fmt with
  | Some n =>
    if len b mod Z.of_nat n =? 0
    then Ok (PArray fmt (map (unpack_item fmt) (chunks (length b) n b)))
    else Raise TypeError
  | None => Raise ValueError
  end.

End WithLibrary.

End Struct.

(** ** Module constants (dbapi.py, lines 41-63) *)

Definition PROTOCOL_VERSION : Z := 7.
Definition BUFFER_SIZE : Z := 100 * 1000000.
Definition ROWS_PER_FLUSH : Z := 100000.
Definition DEFAULT_CHUNKSIZE : Z := 0.
Definition FETCH_MANY_DEFAULT : Z := 1.

Definition type_to_letter (col_type : list Z) : option string :=
  if Py.pystr_eqb col_type (Py.str "ftBool") then Some "?"%string
  else if Py.pystr_eqb col_type (Py.str "ftUByte") then Some "B"%string
  else if Py.pystr_eqb col_type (Py.str "ftShort") then Some "h"%string
  else if Py.pystr_eqb col_type (Py.str "ftInt") then Some "i"%string
  else if Py.pystr_eqb col_type (Py.str "ftLong") then Some "q"%string
  else if Py.pystr_eqb col_type (Py.str "ftFloat") then Some "f"%string
  else if Py.pystr_eqb col_type (Py.str "ftDouble") then Some "d"%string
  else if Py.pystr_eqb col_type (Py.str "ftDate") then Some "i"%string
  else if Py.pystr_eqb col_type (Py.str "ftDateTime") then Some "q"%string
  else if Py.pystr_eqb col_type (Py.str "ftVarchar") then Some "s"%string
  else if Py.pystr_eqb col_type (Py.str "ftBlob") then Some "s"%string
  else None.

(** ** Socket related (dbapi.py, lines 191-322)

    The peer is the sequence of bytes it delivers over the life of the
    connection; when a read finds it exhausted the socket returns 0, as
    for a peer that has closed.  A [send] transmits all of its data. *)

Module Transport.
Import Py.

Record SQSocket : Type := mkSQSocket {
  ip : pyval;
  port : pyval;
  use_ssl : bool;
  inbound : list Z;          (* what the peer has sent and is not yet read *)
  outbound : list (list Z);  (* the data of every [send], oldest first *)
  timeout_ : pyval;
  closed : bool              (* no connected socket behind the object *)
}.

Definition set_inbound (b : list Z) (s : SQSocket) : SQSocket :=
  mkSQSocket (ip s) (port s) (use_ssl s) b (outbound s) (timeout_ s) (closed s).
Definition set_outbound (o : list (list Z)) (s : SQSocket) : SQSocket :=
  mkSQSocket (ip s) (port s) (use_ssl s) (inbound s) o (timeout_ s) (closed s).
Definition set_timeout (t : pyval) (s : SQSocket) : SQSocket :=
  mkSQSocket (ip s) (port s) (use_ssl s) (inbound s) (outbound s) t (closed s).
Definition set_closed (c : bool) (s : SQSocket) : SQSocket :=
  mkSQSocket (ip s) (port s) (use_ssl s) (inbound s) (outbound s) (timeout_ s) c.

Section WithLibrary.
Context (L : library).

(** [_setup_socket]: a new socket, connected to [(ip, port)]. *)
Definition _setup_socket (ip port : pyval) : M SQSocket unit :=
  fun s =>
    let s := set_timeout (PInt 10) s in
    match socket_connect L ip port (use_ssl s) with
    | Connected peer =>
      (Ok tt, set_timeout PNone (set_closed false (set_inbound peer s)))
    | Refused =>
      (Raise (ConnectionRefusedError "Connection refused, perhaps wrong IP?"),
       set_closed true s)
    | ResetByPeer =>
      (Raise (Exception_ "Trying to connect to an SSL port with use_ssl = False"),
       set_closed true s)
    | TimedOut =>
      (Raise (Exception_ "Timeout when connecting to SQream, perhaps wrong IP?"),
       set_closed true s)
    | SSLUnknownProtocol =>
      (Raise (Exception_ "Using use_ssl=True but connected to non ssl sqreamd port"),
       set_closed true s)
    | Failed => (Raise (Exception_ ""), set_closed true s)
    end.

(** [SQSocket(ip, port, use_ssl)] *)
Definition new_SQSocket (ip port : pyval) (use_ssl : bool) : result SQSocket :=
  let s := mkSQSocket ip port use_ssl [] [] PNone true in
  match _setup_socket ip port s with
  | (Ok _, s') => Ok s'
  | (Raise e, _) => Raise e
  end.

Definition send (data : list Z) : M SQSocket Z :=
  fun s =>
    if closed s then (Raise OSError, s)
    else (Ok (len data), set_outbound (outbound s ++ [data]) s).

Definition close : M SQSocket unit :=
  fun s => (Ok tt, set_closed true s).

Definition reconnect (ip' port' : pyval) : M SQSocket unit :=
  close ;;;
  s <~ get ;;
  _setup_socket (py_or ip' (ip s)) (py_or port' (port s)).

(** [receive(byte_num, timeout)]: exactly [byte_num] bytes, or the error
    of a socket that returned 0. *)
Definition receive (byte_num : Z) (timeout : pyval) : M SQSocket (list Z) :=
  fun s =>
    if byte_num <? 0 then (Raise ValueError, s)
    else
      let s := if py_truthy timeout then set_timeout timeout s else s in
      if byte_num =? 0 then
        (Ok [], if py_truthy timeout then set_timeout PNone s else s)
      else if closed s then (Raise OSError, s)
      else if byte_num <=? len (inbound s) then
        (Ok (firstn (Z.to_nat byte_num) (inbound s)),
         let s := set_inbound (skipn (Z.to_nat byte_num) (inbound s)) s in
         if py_truthy timeout then set_timeout PNone s else s)
      else
        (Raise (ConnectionRefusedError
                  "SQreamd connection interrupted - 0 returned by socket"),
         set_inbound [] s).

(** [get_response(is_text_msg)] *)
Definition get_response (is_text_msg : bool) : M SQSocket pyval :=
  header <~ receive 10 PNone ;;
  server_protocol <~ pure_ (index header 0) ;;
  if negb ((server_protocol =? 6) || (server_protocol =? 7)) then
    raise (Exception_ ("Protocol mismatch, client version - "
                       ++ decimal PROTOCOL_VERSION ++ ", server version - "
                       ++ decimal server_protocol))
  else
    message_len <~ pure_ (Struct.unpack L "q" (slice header (Some 2) (Some 10))) ;;
    match message_len with
    | PInt message_len =>
      data <~ receive message_len PNone ;;
      if is_text_msg then
        text <~ pure_ (decode_utf8 data) ;;
        ret (PStr text)
      else ret (PBytes data)
    | _ => raise TypeError
    end.

(** [generate_message_header(data_length, is_text_msg, protocol_version)] *)
Definition generate_message_header (data_length : Z) (is_text_msg : bool)
    (protocol_version : Z) : result (list Z) :=
  a <- Struct.pack L "b" [PInt protocol_version;
                          PInt (if is_text_msg then 1 else 2)] ;;
  b <- Struct.pack L "q" [PInt data_length] ;;
  Ok (a ++ b).

(** [validate_response(response, expected)] *)
Definition validate_response (response expected : list Z) : result unit :=
  if negb (str_in expected response) then
    Raise (Exception_ "expected response but got:")
  else Ok tt.

End WithLibrary.

End Transport.

(** ** The packing of a column (dbapi.py, lines 149-156 and 380-527) *)

Module Codec.
Import Py.

Definition lengths_to_pairs (nvarc_lengths : list Z) : list (Z * Z) :=
  (fix go (idx : Z) (l : list Z) : list (Z * Z) :=
     match l with
     | [] => []
     | length :: l' =>
       let new_idx := idx + length in
       (idx, new_idx) :: go new_idx l'
     end) 0 nvarc_lengths.

(** An anonymous [mmap]: its length and what has been written from its
    start on; the rest of it is zero. *)
Record buffer : Type := mkbuffer { buf_len : Z; written : list Z }.

(** [mmap(-1, length)] *)
Definition mmap (length : Z) : result buffer :=
  if length <? 0 then Raise OverflowError
  else if length =? 0 then Raise ValueError
  else Ok (mkbuffer length []).

(** Whether [n] bytes are more than the map holds. *)
Definition exceeds (n : Z) (b : buffer) : bool := buf_len b <? n.

(** [buf_map[0:buf_idx]] *)
Definition contents (b : buffer) (buf_idx : Z) : list Z :=
  let n := Z.min buf_idx (buf_len b) in
  firstn (Z.to_nat n)
         (written b ++ repeat 0 (Z.to_nat (n - len (written b)))).

Section WithLibrary.
Context (L : library).

(** [pack_into(f'{len(values)}{fmt}', buf_view, buf_idx, *values)] where
    [buf_idx] is the end of what has been written. *)
Definition pack_into (fmt : string) (b : buffer) (values : list pyval)
  : result buffer :=
  match Struct.calcsize fmt with
  | Some n =>
    if exceeds (len (written b) + Z.of_nat n * len values) b
    then Raise struct_error
    else
      bytes <- Struct.pack L fmt values ;;
      Ok (mkbuffer (buf_len b) (written b ++ bytes))
  | None => Raise struct_error
  end.

(** [buf_map.seek(buf_idx); buf_map.write(data)] *)
Definition write (b : buffer) (data : list Z) : result buffer :=
  if exceeds (len (written b) + len data) b then Raise ValueError
  else Ok (mkbuffer (buf_len b) (written b ++ data)).

Definition pack_exception {A} (col_idx : Z) (col_type : list Z) : result A :=
  Raise (ProgrammingError
           ("Trying to insert unsuitable types to column number "
            ++ decimal (col_idx + 1) ++ " of type " ++ to_string col_type)).

(** [strn.encode(encoding)] of whatever value a cell holds. *)
Definition encode_with (enc : list Z -> result (list Z)) (strn : pyval)
  : result (list Z) :=
  match strn with
  | PStr s => enc s
  | _ => Raise AttributeError
  end.

(** [deit.timetuple()[:3]] and [dt.timetuple()[:6] + (dt.microsecond,)] *)
Definition date_fields (deit : pyval) : result (Z * Z * Z) :=
  match deit with
  | PDate d => Ok (Calendar.year d, Calendar.month d, Calendar.day d)
  | PDateTime d => Ok (Calendar.dt_year d, Calendar.dt_month d, Calendar.dt_day d)
  | _ => Raise AttributeError
  end.

Definition datetime_fields (dt : pyval) : result Calendar.datetime :=
  match dt with
  | PDateTime d => Ok d
  | _ => Raise AttributeError
  end.

(** [_pack_column(col_tup)], for a column that is not a numpy array and
    with [return_actual_data] left at its default. *)
Definition _pack_column (col : list pyval) (col_idx : Z) (col_type : list Z)
    (size : Z) (nullable tvc : bool) : result (list Z) :=
  let capacity := len col in
  buf_map <- mmap (((if nullable then 1 else 0)
                    + (if negb (size =? 0) then size else 104))
                   * ROWS_PER_FLUSH) ;;
  match type_to_letter col_type with
  | None => Raise KeyError
  | Some type_code =>
    (* a text column is encoded in advance, to see if the buffer suffices *)
    blob <-
      (if pystr_eqb col_type (str "ftBlob") then
         match Struct.traverse
                 (fun strn => if negb (is_None strn)
                              then encode_with encode_utf8 strn else Ok [])
                 col with
         | Raise AttributeError => pack_exception col_idx col_type
         | Raise e => Raise e
         | Ok encoded_col =>
           let packed_strings := concat encoded_col in
           let needed_buf_size := len packed_strings + 5 * capacity in
           Ok (Some (encoded_col, packed_strings),
               if exceeds needed_buf_size buf_map
               then mkbuffer needed_buf_size (written buf_map)
               else buf_map)
         end
       else Ok (None, buf_map)) ;;
    let '(blob, buf_map) := blob in
    buf_map <-
      (if nullable then
         pack_into "b" buf_map
                   (map (fun item => PInt (if is_None item then 1 else 0)) col)
       else Ok buf_map) ;;
    (* the placeholders of None; [values] is the generator [col], which is
       run where the source consumes it *)
    data <-
      (if pystr_eqb col_type (str "ftBlob") then
         Ok (inl (match blob with Some (_, p) => Some p | None => None end))
       else if pystr_eqb col_type (str "ftVarchar") then
         r <- Struct.traverse
                (fun strn =>
                   if negb (is_None strn) then
                     e <- encode_with encode_ascii strn ;;
                     Ok (ljust (slice e None (Some size)) size)
                   else Ok (ljust [] size))
                col ;;
         Ok (inl (Some (concat r)))
       else if pystr_eqb col_type (str "ftDate") then
         Ok (inr (Struct.traverse
                    (fun deit =>
                       if negb (is_None deit) then
                         f <- date_fields deit ;;
                         let '(y, m, d) := f in
                         Ok (PInt (Calendar.date_tuple_to_int y m d))
                       else Ok (PInt (Calendar.date_tuple_to_int 1900 1 1)))
                    col))
       else if pystr_eqb col_type (str "ftDateTime") then
         Ok (inr (Struct.traverse
                    (fun dt =>
                       if negb (is_None dt) then
                         f <- date_fields dt ;;
                         d <- datetime_fields dt ;;
                         Ok (PInt (Calendar.datetime_tuple_to_long
                                     (Calendar.dt_year d) (Calendar.dt_month d)
                                     (Calendar.dt_day d) (Calendar.dt_hour d)
                                     (Calendar.dt_minute d) (Calendar.dt_second d)
                                     (Calendar.dt_microsecond d)))
                       else Ok (PInt (Calendar.datetime_tuple_to_long
                                        1900 1 1 0 0 0 0)))
                    col))
       else if existsb (pystr_eqb col_type)
                 (map str ["ftBool"; "ftUByte"; "ftShort"; "ftInt"; "ftLong";
                           "ftFloat"; "ftDouble"]%string) then
         Ok (inr (Ok (map (fun num => if negb (is_None num) then num
                                      else PInt 0) col)))
       else Raise (ProgrammingError "Bad column type passed: ")) ;;
    (* the nvarchar length column *)
    buf_map <-
      (if tvc then
         match blob with
         | Some (encoded_col, _) =>
           pack_into "i" buf_map (map (fun string => PInt (len string)) encoded_col)
         | None => Raise UnboundLocalError
         end
       else Ok buf_map) ;;
    (* the actual data *)
    if existsb (pystr_eqb col_type) (map str ["ftVarchar"; "ftBlob"]%string) then
      match data with
      | inl (Some packed_strings) =>
        buf_map <- write buf_map packed_strings ;;
        Ok (contents buf_map (len (written buf_map)))
      | _ => Raise UnboundLocalError
      end
    else
      match data with
      | inr values =>
        values <- values ;;
        let buf_idx := len (written buf_map) in
        match pack_into type_code buf_map values with
        | Raise struct_error => pack_exception col_idx col_type
        | Raise e => Raise e
        | Ok buf_map => Ok (contents buf_map (buf_idx + capacity * size))
        end
      | inl _ => Raise UnboundLocalError
      end
  end.

End WithLibrary.

End Codec.

(** ** The connection (dbapi.py, lines 530-1150) *)

Module Engine.
Import Py.

(** A [Connection] object: its attributes by name, as Python keeps them
    in the dictionary of the instance; the socket [self.s]; whether the
    column buffer has its worker pool; and the flag
    [Connection.base_conn_open[0]], which the class shares. *)
Record Connection : Type := mkConnection {
  attrs : gmap string pyval;
  s : Transport.SQSocket;
  pool : bool;
  base_conn_open : bool
}.

Definition set_attrs (a : gmap string pyval) (c : Connection) : Connection :=
  mkConnection a (s c) (pool c) (base_conn_open c).
Definition set_s (x : Transport.SQSocket) (c : Connection) : Connection :=
  mkConnection (attrs c) x (pool c) (base_conn_open c).
Definition set_pool (p : bool) (c : Connection) : Connection :=
  mkConnection (attrs c) (s c) p (base_conn_open c).
Definition set_base_conn_open (b : bool) (c : Connection) : Connection :=
  mkConnection (attrs c) (s c) (pool c) b.

(** [self.name] and [self.name = v] *)
Definition getattr (name : string) : M Connection pyval :=
  fun c =>
    match attrs c !! name with
    | Some v => (Ok v, c)
    | None => (Raise AttributeError, c)
    end.

Definition setattr (name : string) (v : pyval) : M Connection unit :=
  modify (fun c => set_attrs (<[name := v]> (attrs c)) c).

(** A method of [self.s]. *)
Definition on_socket {A} (m : M Transport.SQSocket A) : M Connection A :=
  zoom s set_s m.

Fixpoint for_each {S A} (l : list A) (body : A -> M S unit) : M S unit :=
  match l with
  | [] => ret tt
  | x :: l' => body x ;;; for_each l' body
  end.

Fixpoint map_each {S A B} (l : list A) (body : A -> M S B) : M S (list B) :=
  match l with
  | [] => ret []
  | x :: l' =>
    y <~ body x ;;
    r <~ map_each l' body ;;
    ret (y :: r)
  end.

(** [zip] of the columns unpacked: the rows of a sequence of columns, as many as the
    shortest column has; none when there is no column. *)
Fixpoint transpose (fuel : nat) (columns : list (list pyval)) : list (list pyval) :=
  match fuel with
  | O => []
  | S k =>
    match columns with
    | [] => []
    | _ =>
      if forallb (fun col => negb (len col =? 0)) columns
      then map (fun col => match col with x :: _ => x | [] => PNone end) columns
           :: transpose k (map (fun col => skipn 1 col) columns)
      else []
    end
  end.

Definition zip_star (columns : list (list pyval)) : list pyval :=
  map PTuple
      (transpose (match columns with c :: _ => length c | [] => O end) columns).

Section WithLibrary.
Context (L : library).

(** [str(v)], as an f-string or [format] interpolates a value. *)
Definition format_value (v : pyval) : list Z :=
  match v with
  | PStr t => t
  | PInt n => str_of_int n
  | PBool b => str (if b then "True" else "False")
  | PNone => str "None"
  | _ => str_other L v
  end.

(** [json.loads(v)] *)
Definition loads (v : pyval) : result pyval :=
  match v with
  | PStr t => json_loads L t
  | _ => Raise TypeError
  end.

(** [a + b] and [a * b] *)
Definition add (a b : pyval) : result pyval :=
  match as_int a, as_int b with
  | Some x, Some y => Ok (PInt (x + y))
  | _, _ => binop_other L "+" a b
  end.

Definition mul (a b : pyval) : result pyval :=
  match as_int a, as_int b with
  | Some x, Some y => Ok (PInt (x * y))
  | _, _ => binop_other L "*" a b
  end.

(** [sum(values)] *)
Definition py_sum (values : list pyval) : result pyval :=
  fold_left (fun acc v => a <- acc ;; add a v) values (Ok (PInt 0)).

(** *** Opening (lines 535-587) *)

Definition _open_connection (clustered use_ssl : bool) : M Connection unit :=
  (if clustered then
     orig_ip <~ getattr "orig_ip" ;;
     orig_port <~ getattr "orig_port" ;;
     picker_socket <~ pure_ (Transport.new_SQSocket L orig_ip orig_port false) ;;
     let picker_socket := Transport.set_timeout (PInt 5) picker_socket in
     let '(r, picker_socket) := Transport.receive 4 PNone picker_socket in
     b <~ pure_ r ;;
     read_len <~ pure_ (Struct.unpack L "i" b) ;;
     let picker_socket := Transport.set_timeout PNone picker_socket in
     match read_len with
     | PInt read_len =>
       let '(r, picker_socket) := Transport.receive read_len PNone picker_socket in
       ip <~ pure_ r ;;
       setattr "ip" (PBytes ip) ;;;
       let '(r, picker_socket) := Transport.receive 4 PNone picker_socket in
       b <~ pure_ r ;;
       port <~ pure_ (Struct.unpack L "i" b) ;;
       setattr "port" port
     | _ => raise TypeError
     end
   else
     orig_ip <~ getattr "orig_ip" ;;
     orig_port <~ getattr "orig_port" ;;
     setattr "ip" orig_ip ;;;
     setattr "port" orig_port) ;;;
  ip <~ getattr "ip" ;;
  port <~ getattr "port" ;;
  sock <~ pure_ (Transport.new_SQSocket L ip port use_ssl) ;;
  modify (set_s sock) ;;;
  base_connection <~ getattr "base_connection" ;;
  if py_truthy base_connection then modify (set_base_conn_open true)
  else ret tt.

(** [Connection(ip, port, clustered, use_ssl, base_connection,
    reconnect_attempts, reconnect_interval)], the class flag being
    [class_flag] when the object is made. *)
Definition new_Connection (class_flag : bool) (ip port : pyval)
    (clustered use_ssl base_connection : bool)
    (reconnect_attempts reconnect_interval : pyval) : result Connection :=
  let self :=
    mkConnection ∅
      (Transport.mkSQSocket PNone PNone false [] [] PNone true)
      false class_flag in
  let init : M Connection unit :=
    setattr "row_size" (PInt 0) ;;;
    setattr "rows_per_flush" (PInt 0) ;;;
    setattr "stmt_id" PNone ;;;
    setattr "open_statement" (PBool false) ;;;
    setattr "closed" (PBool false) ;;;
    setattr "orig_ip" ip ;;;
    setattr "orig_port" port ;;;
    setattr "clustered" (PBool clustered) ;;;
    setattr "use_ssl" (PBool use_ssl) ;;;
    setattr "reconnect_attempts" reconnect_attempts ;;;
    setattr "reconnect_interval" reconnect_interval ;;;
    setattr "base_connection" (PBool base_connection) ;;;
    _open_connection clustered use_ssl ;;;
    setattr "arraysize" (PInt FETCH_MANY_DEFAULT) ;;;
    setattr "rowcount" (PInt (-1)) ;;;
    setattr "more_to_fetch" PNone ;;;
    if base_connection then setattr "cursors" (PList []) else ret tt in
  match init self with
  | (Ok _, self) => Ok self
  | (Raise e, _) => Raise e
  end.

(** [_send_string(json_cmd, get_response, is_text_msg)] *)
Definition _send_string (json_cmd : list Z) (get_response is_text_msg : bool)
  : M Connection pyval :=
  header <~ pure_ (Transport.generate_message_header L (len json_cmd) true
                                                     PROTOCOL_VERSION) ;;
  body <~ pure_ (encode_utf8 json_cmd) ;;
  on_socket (Transport.send (header ++ body)) ;;;
  if get_response then on_socket (Transport.get_response L is_text_msg)
  else ret PNone.

(** [connect_database(database, username, password, service)] *)
Definition connect_database (database username password service : pyval)
  : M Connection unit :=
  setattr "database" database ;;;
  setattr "username" username ;;;
  setattr "password" password ;;;
  setattr "service" service ;;;
  res <~ _send_string
           (lit "{'username':'" ++ format_value username
            ++ lit "', 'password':'" ++ format_value password
            ++ lit "', 'connectDatabase':'" ++ format_value database
            ++ lit "', 'service':'" ++ format_value service
            ++ lit "'}") true true ;;
  res <~ pure_ (loads res) ;;
  match py_getitem res (PStr (str "connectionId")) with
  | Ok connection_id => setattr "connection_id" connection_id
  | Raise KeyError =>
    _ <~ pure_ (py_getitem res (PStr (str "error"))) ;;
    raise (ProgrammingError "Error connecting to database: ")
  | Raise e => raise e
  end ;;;
  enc <~ pure_ (py_get res (PStr (str "varcharEncoding")) (PStr (str "ascii"))) ;;
  setattr "varchar_enc" enc.

(** *** Closing (lines 845-861) *)

Definition close_statement : M Connection unit :=
  _send_string (lit "{'closeStatement': 'closeStatement'}") true true ;;;
  setattr "open_statement" (PBool false).

(** *** DB-API checks (lines 939-951) *)

Definition _verify_open : M Connection unit :=
  c <~ get ;;
  if negb (base_conn_open c) then
    raise (ProgrammingError "Connection has been closed")
  else
    closed <~ getattr "closed" ;;
    if py_truthy closed then raise (ProgrammingError "Cursor has been closed")
    else ret tt.

Definition _verify_query_type : M Connection unit :=
  open_statement <~ getattr "open_statement" ;;
  if negb (py_truthy open_statement) then
    raise (ProgrammingError "No open statement while attempting fetch operation")
  else ret tt.

(** *** Statements (lines 632-706) *)

(** [ColumnBuffer.init_buffers(col_sizes, col_nul)] *)
Definition init_buffers (col_sizes col_nul : pyval) : M Connection unit :=
  sizes <~ pure_ (py_iter col_sizes) ;;
  _ <~ pure_ (Struct.traverse
                (fun size =>
                   match as_int size with
                   | Some size =>
                     Codec.mmap (((if py_truthy col_nul then 1 else 0)
                                  + (if negb (size =? 0) then size else 104))
                                 * ROWS_PER_FLUSH)
                   | None => Raise TypeError
                   end) sizes) ;;
  modify (set_pool true).

(** [{name: idx for idx, name in enumerate(col_names)}] *)
Definition hashable (v : pyval) : bool :=
  match v with
  | PList _ | PDict _ | PArray _ _ => false
  | _ => true
  end.

Fixpoint dict_set (d : list (pyval * pyval)) (k v : pyval) : list (pyval * pyval) :=
  match d with
  | [] => [(k, v)]
  | (k', v') :: d' =>
    if key_eqb k' k then (k', v) :: d' else (k', v') :: dict_set d' k v
  end.

Definition names_map (col_names : list pyval) : result pyval :=
  r <- fold_left
         (fun acc '(idx, name) =>
            d <- acc ;;
            if hashable name then Ok (dict_set d name (PInt (Z.of_nat idx)))
            else Raise TypeError)
         (combine (seq 0 (length col_names)) col_names) (Ok []) ;;
  Ok (PDict r).

Definition text_of (v : pyval) : M Connection (list Z) :=
  match v with
  | PStr t => ret t
  | _ => raise TypeError
  end.

Definition execute_sqream_statement (stmt : list Z) : M Connection unit :=
  setattr "latest_stmt" (PStr stmt) ;;;
  open_statement <~ getattr "open_statement" ;;
  (if py_truthy open_statement then close_statement else ret tt) ;;;
  setattr "open_statement" (PBool true) ;;;
  setattr "more_to_fetch" (PBool true) ;;;
  res <~ _send_string (lit "{'getStatementId' : 'getStatementId'}") true true ;;
  res <~ pure_ (loads res) ;;
  stmt_id <~ pure_ (py_getitem res (PStr (str "statementId"))) ;;
  setattr "stmt_id" stmt_id ;;;
  stmt <~ pure_ (json_dumps L
                   (PDict [(PStr (str "prepareStatement"), PStr stmt);
                           (PStr (str "chunkSize"), PInt DEFAULT_CHUNKSIZE)])) ;;
  res <~ _send_string stmt true true ;;
  text <~ text_of res ;;
  pure_ (Transport.validate_response text (str "statementPrepared")) ;;;
  lb_params <~ pure_ (loads res) ;;
  setattr "lb_params" lb_params ;;;
  reconnect <~ pure_ (py_get lb_params (PStr (str "reconnect")) PNone) ;;
  (if py_truthy reconnect then
     (* the socket is closed and opened anew where the response says *)
     ip <~ pure_ (py_getitem lb_params (PStr (str "ip"))) ;;
     use_ssl <~ getattr "use_ssl" ;;
     port <~ pure_ (py_getitem lb_params
                      (PStr (str (if py_truthy use_ssl then "port_ssl" else "port")))) ;;
     on_socket (Transport.reconnect L ip port) ;;;
     service <~ getattr "service" ;;
     database <~ getattr "database" ;;
     connection_id <~ getattr "connection_id" ;;
     listener_id <~ pure_ (py_getitem lb_params (PStr (str "listener_id"))) ;;
     username <~ getattr "username" ;;
     password <~ getattr "password" ;;
     _send_string
       (lit "{'service': '" ++ format_value service
        ++ lit "', 'reconnectDatabase':'" ++ format_value database
        ++ lit "', 'connectionId':" ++ format_value connection_id
        ++ lit ", 'listenerId':" ++ format_value listener_id
        ++ lit ",'username':'" ++ format_value username
        ++ lit "', 'password':'" ++ format_value password
        ++ lit "'}") true true ;;;
     stmt_id <~ getattr "stmt_id" ;;
     _send_string (lit "{'reconstructStatement': " ++ format_value stmt_id
                   ++ lit "}") true true ;;;
     ret tt
   else ret tt) ;;;
  _send_string (lit "{'execute' : 'execute'}") true true ;;;
  res <~ _send_string (lit "{'queryTypeIn': 'queryTypeIn'}") true true ;;
  res <~ pure_ (loads res) ;;
  column_list <~ pure_ (py_get res (PStr (str "queryType")) (PStr [])) ;;
  setattr "column_list" column_list ;;;
  let columns : M Connection unit :=
    column_list <~ getattr "column_list" ;;
    cols <~ pure_ (py_iter column_list) ;;
    tups <~ pure_ (Struct.traverse
                     (fun col =>
                        name <- py_get col (PStr (str "name")) (PStr []) ;;
                        tvc <- py_getitem col (PStr (str "isTrueVarChar")) ;;
                        nul <- py_getitem col (PStr (str "nullable")) ;;
                        type <- py_getitem col (PStr (str "type")) ;;
                        Ok (name, tvc, nul, type)) cols) ;;
    setattr "col_names" (PTuple (map (fun t => fst (fst (fst t))) tups)) ;;;
    setattr "col_tvc" (PTuple (map (fun t => snd (fst (fst t))) tups)) ;;;
    setattr "col_nul" (PTuple (map (fun t => snd (fst t)) tups)) ;;;
    setattr "col_type_tups" (PTuple (map snd tups)) ;;;
    m <~ pure_ (names_map (map (fun t => fst (fst (fst t))) tups)) ;;
    setattr "col_names_map" m ;;;
    statement_type <~ getattr "statement_type" ;;
    (if key_eqb statement_type (PStr (str "INSERT")) then
       col_types <~ pure_ (Struct.traverse
                             (fun type_tup => py_getitem type_tup (PInt 0))
                             (map snd tups)) ;;
       setattr "col_types" (PList col_types) ;;;
       col_sizes <~ pure_ (Struct.traverse
                             (fun type_tup => py_getitem type_tup (PInt 1))
                             (map snd tups)) ;;
       setattr "col_sizes" (PList col_sizes) ;;;
       a <~ pure_ (py_sum col_sizes) ;;
       b <~ pure_ (py_sum (map (fun t => snd (fst t)) tups)) ;;
       ab <~ pure_ (add a b) ;;
       c <~ pure_ (py_sum (map (fun t => snd (fst (fst t))) tups)) ;;
       c4 <~ pure_ (mul (PInt 4) c) ;;
       row_size <~ pure_ (add ab c4) ;;
       setattr "row_size" row_size ;;;
       setattr "rows_per_flush" (PInt ROWS_PER_FLUSH) ;;;
       col_nul <~ getattr "col_nul" ;;
       init_buffers (PList col_sizes) col_nul
     else ret tt) ;;;
    setattr "parsed_rows" (PList []) ;;;
    setattr "parsed_row_amount" (PInt 0) in
  if negb (py_truthy column_list) then
    res <~ _send_string (lit "{'queryTypeOut' : 'queryTypeOut'}") true true ;;
    res <~ pure_ (loads res) ;;
    column_list <~ pure_ (py_get res (PStr (str "queryTypeNamed")) (PStr [])) ;;
    setattr "column_list" column_list ;;;
    if negb (py_truthy column_list) then
      setattr "statement_type" (PStr (str "DML")) ;;;
      close_statement
    else
      setattr "statement_type"
              (PStr (str (if py_truthy column_list then "SELECT" else "DML"))) ;;;
      setattr "result_rows" (PList []) ;;;
      setattr "unparsed_row_amount" (PInt 0) ;;;
      setattr "data_columns" (PList []) ;;;
      columns
  else
    setattr "statement_type" (PStr (str "INSERT")) ;;;
    columns.

(** *** Select (lines 711-812) *)


(** [v == 0] *)
Definition eq_zero (v : pyval) : bool :=
  match v with
  | PFloat bits => (bits =? 0) || (bits =? 2 ^ 63)
  | _ => match as_int v with Some n => n =? 0 | None => false end
  end.

(** [self.name.append(v)] *)
Definition append_attr (name : string) (v : pyval) : M Connection unit :=
  l <~ getattr name ;;
  match l with
  | PList l => setattr name (PList (l ++ [v]))
  | _ => raise AttributeError
  end.

(** [unsorted_data_columns.pop(0)] *)
Definition pop0 (l : list (list Z)) : result (list Z * list (list Z)) :=
  match l with
  | x :: l' => Ok (x, l')
  | [] => Raise IndexError
  end.

(** [type_to_letter[v]] *)
Definition letter_of (v : pyval) : result string :=
  match v with
  | PStr t =>
    match type_to_letter t with Some c => Ok c | None => Raise KeyError end
  | _ => if hashable v then Raise KeyError else Raise TypeError
  end.

Definition is_text_type (v : pyval) : bool :=
  key_eqb v (PStr (str "ftVarchar")) || key_eqb v (PStr (str "ftBlob")).

Fixpoint zip3 {A B C} (a : list A) (b : list B) (c : list C) : list (A * B * C) :=
  match a, b, c with
  | x :: a', y :: b', z :: c' => (x, y, z) :: zip3 a' b' c'
  | _, _, _ => []
  end.

(** The body of the loop of [_fetch] over the columns of the statement;
    [unsorted] is what is left of [unsorted_data_columns]. *)
Definition sort_column (unsorted : list (list Z)) (desc : pyval * pyval * pyval)
  : M Connection (list (list Z)) :=
  let '(type_tup, nullable, tvc) := desc in
  step1 <~ (if py_truthy nullable then
              p <~ pure_ (pop0 unsorted) ;;
              ret ([PArray "B" (map PInt (fst p))], snd p)
            else ret ([], unsorted)) ;;
  let '(column, unsorted) := step1 in
  step2 <~ (if py_truthy tvc then
              p <~ pure_ (pop0 unsorted) ;;
              a <~ pure_ (Struct.cast L "i" (fst p)) ;;
              ret (column ++ [a], snd p)
            else ret (column, unsorted)) ;;
  let '(column, unsorted) := step2 in
  p <~ pure_ (pop0 unsorted) ;;
  let '(raw, unsorted) := p in
  type <~ pure_ (py_getitem type_tup (PInt 0)) ;;
  last <~ (if negb (is_text_type type) then
             letter <~ pure_ (letter_of type) ;;
             pure_ (Struct.cast L letter raw)
           else ret (PBytes raw)) ;;
  append_attr "data_columns" (PList (column ++ [last])) ;;;
  ret unsorted.

Fixpoint fold_each {S A B} (l : list A) (acc : B) (body : B -> A -> M S B)
  : M S B :=
  match l with
  | [] => ret acc
  | x :: l' =>
    acc' <~ body acc x ;;
    fold_each l' acc' body
  end.

Definition _fetch : M Connection pyval :=
  res <~ _send_string (lit "{'fetch' : 'fetch'}") true true ;;
  res <~ pure_ (loads res) ;;
  num_rows_fetched <~ pure_ (py_getitem res (PStr (str "rows"))) ;;
  column_sizes <~ pure_ (py_getitem res (PStr (str "colSzs"))) ;;
  if eq_zero num_rows_fetched then
    close_statement ;;;
    ret num_rows_fetched
  else
    (* the preceding header, then every column as the server sized it *)
    on_socket (Transport.receive 10 PNone) ;;;
    sizes <~ pure_ (py_iter column_sizes) ;;
    unsorted_data_columns <~
      map_each sizes
        (fun size =>
           match as_int size with
           | Some size => on_socket (Transport.receive size PNone)
           | None => raise TypeError
           end) ;;
    setattr "data_columns" (PList []) ;;;
    col_type_tups <~ getattr "col_type_tups" ;;
    col_nul <~ getattr "col_nul" ;;
    col_tvc <~ getattr "col_tvc" ;;
    type_tups <~ pure_ (py_iter col_type_tups) ;;
    nuls <~ pure_ (py_iter col_nul) ;;
    tvcs <~ pure_ (py_iter col_tvc) ;;
    fold_each (zip3 type_tups nuls tvcs) unsorted_data_columns sort_column ;;;
    setattr "unparsed_row_amount" num_rows_fetched ;;;
    ret num_rows_fetched.

(** [b.decode(enc)] *)
Definition decode (enc : pyval) (b : pyval) : result pyval :=
  match b with
  | PBytes b =>
    match enc with
    | PStr name =>
      t <- (if pystr_eqb name (str "ascii") then decode_ascii b
            else if pystr_eqb name (str "utf8") || pystr_eqb name (str "utf-8")
                 then decode_utf8 b
                 else decode_other L name b) ;;
      Ok (PStr t)
    | _ => Raise TypeError
    end
  | _ => Raise AttributeError
  end.

(** [range(0, stop, step)] *)
Definition range0 (stop step : Z) : result (list Z) :=
  if step =? 0 then Raise ValueError
  else if (step <? 0) || (stop <=? 0) then Ok []
  else Ok (map (fun k => Z.of_nat k * step)
               (seq 0 (Z.to_nat ((stop + step - 1) / step)))).

(** The longest prefix of integers of a sequence. *)
Fixpoint leading_ints (l : list pyval) : list Z :=
  match l with
  | [] => []
  | v :: l' =>
    match as_int v with
    | Some n => n :: leading_ints l'
    | None => []
    end
  end.

(** [sq_date_to_tuple(d)] and [sq_datetime_to_tuple(d)] on an item of a
    column of the wire. *)
Definition date_item (d : pyval) : result pyval :=
  match d with
  | PNone => Ok PNone
  | _ =>
    match as_int d with
    | Some n =>
      r <- Calendar.sq_date_to_tuple Calendar.py_date (Some n) ;;
      Ok (match r with Some x => PDate x | None => PNone end)
    | None => Raise TypeError
    end
  end.

Definition datetime_item (d : pyval) : result pyval :=
  match d with
  | PNone => Ok PNone
  | _ =>
    match as_int d with
    | Some n =>
      r <- Calendar.sq_datetime_to_tuple Calendar.py_datetime (Some n) ;;
      Ok (match r with Some x => PDateTime x | None => PNone end)
    | None => Raise TypeError
    end
  end.

(** The body of the loop of [_parse_fetched_cols]. *)
Definition parse_column (idx : Z) (raw_col_data : pyval) : M Connection unit :=
  col_tvc <~ getattr "col_tvc" ;;
  tvc <~ pure_ (py_getitem col_tvc (PInt idx)) ;;
  let type_of_column : M Connection pyval :=
    col_type_tups <~ getattr "col_type_tups" ;;
    type_tup <~ pure_ (py_getitem col_type_tups (PInt idx)) ;;
    pure_ (py_getitem type_tup (PInt 0)) in
  col <~
    (if py_truthy tvc then
       (* nvarchar *)
       nvarc_sizes <~ pure_ (py_getitem raw_col_data (PInt 1)) ;;
       lengths <~ pure_ (py_iter nvarc_sizes) ;;
       col <~ pure_ (Struct.traverse
                       (fun '(start, end_) =>
                          last <- py_getitem raw_col_data (PInt (-1)) ;;
                          piece <- py_slice last (Some start) (Some end_) ;;
                          decode (PStr (str "utf8")) piece)
                       (Codec.lengths_to_pairs (leading_ints lengths))) ;;
       if (length (leading_ints lengths) <? length lengths)%nat
       then raise TypeError
       else ret (PList col)
     else
       type <~ type_of_column ;;
       if key_eqb type (PStr (str "ftVarchar")) then
         col_type_tups <~ getattr "col_type_tups" ;;
         type_tup <~ pure_ (py_getitem col_type_tups (PInt idx)) ;;
         varchar_size <~ pure_ (py_getitem type_tup (PInt 1)) ;;
         last <~ pure_ (py_getitem raw_col_data (PInt (-1))) ;;
         n <~ pure_ (py_len last) ;;
         match as_int varchar_size with
         | Some varchar_size =>
           starts <~ pure_ (range0 n varchar_size) ;;
           col <~ map_each starts
                    (fun idx =>
                       last <~ pure_ (py_getitem raw_col_data (PInt (-1))) ;;
                       piece <~ pure_ (py_slice last (Some idx)
                                                (Some (idx + varchar_size))) ;;
                       match piece with
                       | PBytes _ =>
                         varchar_enc <~ getattr "varchar_enc" ;;
                         t <~ pure_ (decode varchar_enc piece) ;;
                         match t with
                         | PStr t =>
                           ret (PStr (rstrip_by py_isspace
                                        (rstrip_by (fun c => c =? 0) t)))
                         | _ => raise TypeError
                         end
                       | _ => raise AttributeError
                       end) ;;
           ret (PList col)
         | None => raise TypeError
         end
       else
         type <~ type_of_column ;;
         if key_eqb type (PStr (str "ftDate")) then
           last <~ pure_ (py_getitem raw_col_data (PInt (-1))) ;;
           items <~ pure_ (py_iter last) ;;
           col <~ pure_ (Struct.traverse date_item items) ;;
           ret (PList col)
         else
           type <~ type_of_column ;;
           if key_eqb type (PStr (str "ftDateTime")) then
             last <~ pure_ (py_getitem raw_col_data (PInt (-1))) ;;
             items <~ pure_ (py_iter last) ;;
             col <~ pure_ (Struct.traverse datetime_item items) ;;
             ret (PList col)
           else pure_ (py_getitem raw_col_data (PInt (-1)))) ;;
  (* fill Nones if / where needed *)
  col_nul <~ getattr "col_nul" ;;
  nul <~ pure_ (py_getitem col_nul (PInt idx)) ;;
  col <~ (if py_truthy nul then
            nulls <~ pure_ (py_getitem raw_col_data (PInt 0)) ;;
            items <~ pure_ (py_iter col) ;;
            nulls <~ pure_ (py_iter nulls) ;;
            ret (PList (map (fun '(item, null) =>
                               if negb (py_truthy null) then item else PNone)
                            (combine items nulls)))
          else ret col) ;;
  append_attr "extracted_cols" col.

Definition _parse_fetched_cols : M Connection pyval :=
  setattr "extracted_cols" (PList []) ;;;
  data_columns <~ getattr "data_columns" ;;
  if negb (py_truthy data_columns) then getattr "extracted_cols"
  else
    columns <~ pure_ (py_iter data_columns) ;;
    for_each (combine (map Z.of_nat (seq 0 (length columns))) columns)
             (fun '(idx, raw_col_data) => parse_column idx raw_col_data) ;;;
    (* done with the raw data buffers *)
    setattr "unparsed_row_amount" (PInt 0) ;;;
    setattr "data_columns" (PList []) ;;;
    getattr "extracted_cols".

(** The body of the loop of [_fetch_and_parse]. *)
Definition fetch_and_parse_step : M Connection unit :=
  fetched <~ _fetch ;;
  setattr "more_to_fetch" (PBool (py_truthy fetched)) ;;;
  parsed_rows <~ getattr "parsed_rows" ;;
  match parsed_rows with
  | PList _ =>
    cols <~ _parse_fetched_cols ;;
    cols <~ pure_ (py_iter cols) ;;
    cols <~ pure_ (Struct.traverse py_iter cols) ;;
    parsed_rows <~ getattr "parsed_rows" ;;
    match parsed_rows with
    | PList rows => setattr "parsed_rows" (PList (rows ++ zip_star cols))
    | _ => raise AttributeError
    end
  | _ => raise AttributeError
  end.

(** The loop of [_fetch_and_parse], at most [fuel] times round. *)
Fixpoint fetch_and_parse_loop (fuel : nat) (requested_row_amount : Z)
  : M Connection unit :=
  parsed_rows <~ getattr "parsed_rows" ;;
  n <~ pure_ (py_len parsed_rows) ;;
  if (n <? requested_row_amount) || (requested_row_amount =? -1) then
    more_to_fetch <~ getattr "more_to_fetch" ;;
    if py_truthy more_to_fetch then
      match fuel with
      | O => raise LoopBound
      | S fuel' =>
        fetch_and_parse_step ;;;
        fetch_and_parse_loop fuel' requested_row_amount
      end
    else ret tt
  else ret tt.

(** [_fetch_and_parse(requested_row_amount, data_as)].  Every turn of the
    loop reads a header of ten bytes or raises, so the bytes the peer
    has left bound the turns. *)
Definition _fetch_and_parse (requested_row_amount : Z) (data_as : list Z)
  : M Connection unit :=
  if pystr_eqb data_as (str "rows") then
    c <~ get ;;
    fetch_and_parse_loop (S (length (Transport.inbound (s c))))
                         requested_row_amount
  else ret tt.

(** *** Insert (lines 354-369 and 817-840) *)

Fixpoint zip6 {A B C D E F} (a : list A) (b : list B) (c : list C)
    (d : list D) (e : list E) (f : list F) : list (A * B * C * D * E * F) :=
  match a, b, c, d, e, f with
  | x1 :: a', x2 :: b', x3 :: c', x4 :: d', x5 :: e', x6 :: f' =>
    (x1, x2, x3, x4, x5, x6) :: zip6 a' b' c' d' e' f'
  | _, _, _, _, _, _ => []
  end.

(** [_pack_column] on a tuple of [pool_params]; what is not of the type
    the packing needs makes it raise, and [pack_columns] turns whatever
    is raised into its own error. *)
Definition pack_param (p : pyval * Z * pyval * pyval * pyval * pyval)
  : result (list Z) :=
  let '(col, col_idx, col_type, size, nullable, tvc) := p in
  _ <- py_len col ;;
  items <- py_iter col ;;
  match col_type, as_int size with
  | PStr col_type, Some size =>
    Codec._pack_column L items col_idx col_type size
                       (py_truthy nullable) (py_truthy tvc)
  | _, _ => Raise TypeError
  end.

(** [ColumnBuffer.pack_columns(cols, capacity, col_types, col_sizes,
    col_nul, col_tvc)], the pool mapping in the order of the columns. *)
Definition pack_columns (cols : pyval) (capacity : pyval)
    (col_types col_sizes col_nul col_tvc : pyval) : M Connection (list (list Z)) :=
  cols <~ pure_ (py_iter cols) ;;
  n <~ pure_ (py_len col_types) ;;
  col_types <~ pure_ (py_iter col_types) ;;
  col_sizes <~ pure_ (py_iter col_sizes) ;;
  col_nul <~ pure_ (py_iter col_nul) ;;
  col_tvc <~ pure_ (py_iter col_tvc) ;;
  let pool_params :=
    zip6 cols (map Z.of_nat (seq 0 (Z.to_nat n))) col_types col_sizes
         col_nul col_tvc in
  c <~ get ;;
  match (if pool c then Struct.traverse pack_param pool_params
         else Raise AttributeError) with
  | Ok packed_cols => ret packed_cols
  | Raise _ =>
    raise (ProgrammingError
             "Error packing columns. Check that all types match the respective column types")
  end.

(** [_send_columns(cols, capacity)] *)
Definition _send_columns (cols : pyval) (capacity : pyval) : M Connection unit :=
  cols <~ (if py_truthy cols then ret cols else getattr "cols") ;;
  cols <~ (match cols with
           | PList _ | PTuple _ | PDict _ => ret cols
           | _ => l <~ pure_ (py_iter cols) ;; ret (PList l)
           end) ;;
  capacity <~ (if py_truthy capacity then ret capacity else getattr "capacity") ;;
  col_types <~ getattr "col_types" ;;
  col_sizes <~ getattr "col_sizes" ;;
  col_nul <~ getattr "col_nul" ;;
  col_tvc <~ getattr "col_tvc" ;;
  packed_cols <~ pack_columns cols capacity col_types col_sizes col_nul col_tvc ;;
  let byte_count := fold_left Z.add (map len packed_cols) 0 in
  (* the put message and the binary header *)
  _send_string (lit "{'put':" ++ format_value capacity ++ lit "}") false true ;;;
  header <~ pure_ (Transport.generate_message_header L byte_count false
                                                     PROTOCOL_VERSION) ;;
  on_socket (Transport.send header) ;;;
  (* the packed data *)
  for_each packed_cols
           (fun packed_col => on_socket (Transport.send packed_col) ;;; ret tt) ;;;
  response <~ on_socket (Transport.get_response L true) ;;
  text <~ text_of response ;;
  pure_ (Transport.validate_response text (lit "{'putted':'putted'}")).

(** *** Closing (lines 851-861 and 1110-1118) *)

Definition close_connection : M Connection unit :=
  closed <~ getattr "closed" ;;
  if py_truthy closed then
    raise (ProgrammingError "Trying to close a connection that's already closed")
  else
    _send_string (lit "{'closeConnection':  'closeConnection'}") true true ;;;
    on_socket Transport.close ;;;
    c <~ get ;;
    (if pool c then modify (set_pool false) else raise AttributeError) ;;;
    setattr "closed" (PBool true) ;;;
    base_connection <~ getattr "base_connection" ;;
    modify (set_base_conn_open (negb (py_truthy base_connection))).

Definition close : M Connection unit :=
  closed <~ getattr "closed" ;;
  if py_truthy closed then
    raise (ProgrammingError "Trying to close a connection that's already closed")
  else
    close_statement ;;;
    close_connection ;;;
    setattr "closed" (PBool true).

(** *** DB-API (lines 954-1084) *)

Definition typecodes (col_type : pyval) : result pyval :=
  match col_type with
  | PStr t =>
    if existsb (pystr_eqb t)
         (map str ["ftBool"; "ftUByte"; "ftInt"; "ftShort"; "ftLong";
                   "ftDouble"; "ftFloat"]%string)
    then Ok (PStr (str "NUMBER"))
    else if existsb (pystr_eqb t) (map str ["ftDate"; "ftDateTime"]%string)
    then Ok (PStr (str "DATETIME"))
    else if existsb (pystr_eqb t) (map str ["ftVarchar"; "ftBlob"]%string)
    then Ok (PStr (str "STRING"))
    else Raise KeyError
  | _ => if hashable col_type then Raise KeyError else Raise TypeError
  end.

Definition _fill_description : M Connection unit :=
  statement_type <~ getattr "statement_type" ;;
  if negb (key_eqb statement_type (PStr (str "SELECT"))) then
    setattr "description" PNone
  else
    setattr "description" (PList []) ;;;
    col_names <~ getattr "col_names" ;;
    col_nul <~ getattr "col_nul" ;;
    col_type_tups <~ getattr "col_type_tups" ;;
    col_names <~ pure_ (py_iter col_names) ;;
    col_nul <~ pure_ (py_iter col_nul) ;;
    col_type_tups <~ pure_ (py_iter col_type_tups) ;;
    for_each (zip3 col_names col_nul col_type_tups)
      (fun '(col_name, col_nullable, col_type_tup) =>
         type <~ pure_ (py_getitem col_type_tup (PInt 0)) ;;
         type_code <~ pure_ (typecodes type) ;;
         size <~ pure_ (py_getitem col_type_tup (PInt 1)) ;;
         append_attr "description"
           (PTuple [col_name; type_code; size; size; PNone; PNone; col_nullable])).

(** [execute(query, params)] *)
Definition execute (query : list Z) (params : pyval) : M Connection unit :=
  _verify_open ;;;
  if py_truthy params then
    raise (ProgrammingError "Parametered queries not supported.")
  else
    execute_sqream_statement query ;;;
    _fill_description ;;;
    setattr "rows_fetched" (PInt 0) ;;;
    setattr "rows_returned" (PInt 0).

(** [len(set(len(row_or_col) for row_or_col in rows_or_cols))] *)
Definition distinct_lengths (lengths : list Z) : Z :=
  len (fold_left (fun seen n => if existsb (Z.eqb n) seen then seen
                                else seen ++ [n]) lengths []).

(** [self.cols != [()]] *)
Definition not_one_empty_tuple (cols : pyval) : bool :=
  match cols with
  | PList [PTuple []] => false
  | _ => true
  end.

(** The loop of [executemany] over the chunks, at most [fuel] times
    round. *)
Fixpoint send_chunks (fuel : nat) : M Connection unit :=
  cols <~ getattr "cols" ;;
  if not_one_empty_tuple cols then
    columns <~ pure_ (py_iter cols) ;;
    col_chunk <~ map_each columns
                   (fun col =>
                      rows_per_flush <~ getattr "rows_per_flush" ;;
                      match as_int rows_per_flush with
                      | Some n => pure_ (py_slice col None (Some n))
                      | None => raise TypeError
                      end) ;;
    first <~ pure_ (index col_chunk 0) ;;
    n <~ pure_ (py_len first) ;;
    if n =? 0 then ret tt
    else
      match fuel with
      | O => raise LoopBound
      | S fuel' =>
        first <~ pure_ (index col_chunk 0) ;;
        n <~ pure_ (py_len first) ;;
        _send_columns (PList col_chunk) (PInt n) ;;;
        cols <~ getattr "cols" ;;
        columns <~ pure_ (py_iter cols) ;;
        rest <~ map_each columns
                  (fun col =>
                     rows_per_flush <~ getattr "rows_per_flush" ;;
                     match as_int rows_per_flush with
                     | Some n => pure_ (py_slice col (Some n) None)
                     | None => raise TypeError
                     end) ;;
        setattr "cols" (PList rest) ;;;
        send_chunks fuel'
      end
  else ret tt.

(** The length of the first column, which bounds the chunks to send. *)
Definition first_length (cols : pyval) : nat :=
  match py_iter cols with
  | Ok (col :: _) =>
    match py_len col with Ok n => Z.to_nat n | Raise _ => O end
  | _ => O
  end.

(** [executemany(query, rows_or_cols, data_as, amount)], for data that
    is not made of numpy arrays. *)
Definition executemany (query : list Z) (rows_or_cols : pyval)
    (data_as : list Z) (amount : pyval) : M Connection unit :=
  _verify_open ;;;
  execute query PNone ;;;
  if is_None rows_or_cols then ret tt
  else
    _ <~ pure_ (py_getitem rows_or_cols (PInt 0)) ;;
    (* network insert starts here if data was passed *)
    items <~ pure_ (py_iter rows_or_cols) ;;
    lengths <~ pure_ (Struct.traverse py_len items) ;;
    if 1 <? distinct_lengths lengths then
      raise (ProgrammingError
               "Incosistent data sequences passed for inserting. Please use rows/columns of consistent length")
    else
      (if pystr_eqb data_as (str "rows") then
         (if py_truthy amount then setattr "capacity" amount
          else
            n <~ pure_ (py_len rows_or_cols) ;;
            setattr "capacity" (PInt n)) ;;;
         rows <~ pure_ (Struct.traverse py_iter items) ;;
         setattr "cols" (PList (zip_star rows))
       else
         setattr "cols" rows_or_cols ;;;
         n <~ pure_ (py_len rows_or_cols) ;;
         setattr "capacity" (PInt n)) ;;;
      cols <~ getattr "cols" ;;
      send_chunks (S (S (first_length cols))) ;;;
      close_statement.

(** [fetchmany(size, data_as)], [size] and [self.arraysize] being an
    [int] or [None]. *)
Definition fetchmany (size : option Z) (data_as : list Z) : M Connection pyval :=
  size <~ (match size with
           | Some n => if negb (n =? 0) then ret (PInt n)
                       else getattr "arraysize"
           | None => getattr "arraysize"
           end) ;;
  _verify_open ;;;
  more_to_fetch <~ getattr "more_to_fetch" ;;
  match more_to_fetch with
  | PBool false =>
    (* all data in select statement was fetched *)
    ret (PList [])
  | _ =>
    _verify_query_type ;;;
    match as_int size with
    | None => raise TypeError
    | Some size =>
      _fetch_and_parse size data_as ;;;
      if pystr_eqb data_as (str "rows") then
        (* the relevant part of the parsed rows *)
        parsed_rows <~ getattr "parsed_rows" ;;
        res <~ pure_ (py_slice parsed_rows (Some 0)
                               (if negb (size =? -1) then Some size else None)) ;;
        (if negb (size =? -1) then
           parsed_rows <~ getattr "parsed_rows" ;;
           rest <~ pure_ (py_slice parsed_rows (Some size) None) ;;
           setattr "parsed_rows" rest
         else setattr "parsed_rows" (PList [])) ;;;
        if negb (size =? 1) then
          ret (if py_truthy res then res else PList [])
        else
          if py_truthy res then pure_ (py_getitem res (PInt 0)) else ret PNone
      else raise UnboundLocalError
    end
  end.

(** What [fetchmany] returns of the rows [res] it has taken off the
    parsed rows: the rows when the size is not 1, the first of them or
    [None] when it is. *)
Definition returned (size : Z) (res : list pyval) : pyval :=
  if size =? 1 then match res with r :: _ => r | [] => PNone end
  else PList res.

(** [fetchone(data_as)] *)
Definition fetchone (data_as : list Z) : M Connection pyval :=
  if negb (pystr_eqb data_as (str "rows")) then
    raise (ProgrammingError "Bad argument to fetchone()")
  else fetchmany (Some 1) data_as.

(** [fetchall(data_as)] *)
Definition fetchall (data_as : list Z) : M Connection pyval :=
  if negb (pystr_eqb data_as (str "rows")) then
    raise (ProgrammingError "Bad argument to fetchall()")
  else fetchmany (Some (-1)) data_as.

End WithLibrary.

(** What the peer has sent and the connection has not read yet, and the
    methods that read some of it or none, and those that leave the
    socket alone. *)
Definition left_to_read (c : Connection) : nat :=
  length (Transport.inbound (s c)).

Definition reads {A} (m : M Connection A) : Prop :=
  forall c, (left_to_read (snd (m c)) <= left_to_read c)%nat.

Definition off_line {A} (m : M Connection A) : Prop :=
  forall c, s (snd (m c)) = s c.

End Engine.

(** ** Top level functionality (lines 1156-1168) *)

Section Connect.
Context (L : library).
Import Py.

(** [connect(host, port, database, username, password, clustered,
    use_ssl, service, reconnect_attempts, reconnect_interval)]; the class
    flag [Connection.base_conn_open[0]] is [class_flag] at the call. *)
Definition connect (class_flag : bool) (host port database username password : pyval)
    (clustered use_ssl : bool) (service : pyval)
    (reconnect_attempts reconnect_interval : pyval) : result Engine.Connection :=
  if negb (isinstance_int reconnect_attempts)
     || match as_int reconnect_attempts with Some n => n <? 0 | None => false end
  then Raise (Exception_ "reconnect attempts should be a positive integer, got : ")
  else
  if negb (isinstance_int reconnect_interval)
     || match as_int reconnect_attempts with Some n => n <? 0 | None => false end
  then Raise (Exception_ "reconnect interval should be a positive integer, got : ")
  else
    conn <- Engine.new_Connection L class_flag host port clustered use_ssl true
                                  reconnect_attempts reconnect_interval ;;
    match Engine.connect_database L database username password service conn with
    | (Ok _, conn) => Ok conn
    | (Raise e, _) => Raise e
    end.

End Connect.

(** ** A scripted server

    A library and a peer to run the driver against: the JSON codec is a
    table of the texts the peer sends, each with the object it denotes,
    and the peer is the bytes of its scripted answers. *)

Module Script.
Import Py.

(** A text message as the server frames it. *)
Definition frame (text : list Z) : list Z :=
  [7; 1] ++ Struct.to_bytes LittleEndian 8 (len text) ++ text.

Definition table_loads (table : list (list Z * pyval)) (t : list Z)
  : result pyval :=
  match find (fun e => pystr_eqb (fst e) t) table with
  | Some e => Ok (snd e)
  | None => Raise JSONDecodeError
  end.

Definition r_connect := lit "{'connectionId':1}".
Definition r_stmt := lit "{'statementId':5}".
Definition r_prep := lit "{'statementPrepared':true}".
Definition r_exec := lit "{'executed':'executed'}".
Definition r_in :=
  lit "{'queryType':[{'isTrueVarChar':false,'nullable':true,'type':['ftInt',4,0]},{'isTrueVarChar':false,'nullable':false,'type':['ftVarchar',5,0]}]}".
Definition r_in_empty := lit "{'queryType':[]}".
Definition r_out :=
  lit "{'queryTypeNamed':[{'name':'a','isTrueVarChar':false,'nullable':true,'type':['ftInt',4,0]},{'name':'b','isTrueVarChar':false,'nullable':false,'type':['ftVarchar',5,0]}]}".
Definition r_fetch2 := lit "{'rows':2,'colSzs':[2,8,10]}".
Definition r_fetch0 := lit "{'rows':0,'colSzs':[]}".
Definition r_out_text :=
  lit "{'queryTypeNamed':[{'name':'b','isTrueVarChar':false,'nullable':false,'type':['ftVarchar',5,0]}]}".
Definition r_fetch1 := lit "{'rows':1,'colSzs':[5]}".
Definition r_closed := lit "{'statementClosed':'statementClosed'}".
Definition r_putted := lit "{'putted':'putted'}".

Definition column (name : option string) (tvc nul : bool) (type : string)
    (size : Z) : pyval :=
  PDict ((match name with
          | Some n => [(PStr (str "name"), PStr (str n))]
          | None => []
          end)
         ++ [(PStr (str "isTrueVarChar"), PBool tvc);
             (PStr (str "nullable"), PBool nul);
             (PStr (str "type"), PList [PStr (str type); PInt size; PInt 0])]).

Definition table : list (list Z * pyval) :=
  [(r_connect, PDict [(PStr (str "connectionId"), PInt 1)]);
   (r_stmt, PDict [(PStr (str "statementId"), PInt 5)]);
   (r_prep, PDict [(PStr (str "statementPrepared"), PBool true)]);
   (r_in, PDict [(PStr (str "queryType"),
                  PList [column None false true "ftInt" 4;
                         column None false false "ftVarchar" 5])]);
   (r_in_empty, PDict [(PStr (str "queryType"), PList [])]);
   (r_out, PDict [(PStr (str "queryTypeNamed"),
                   PList [column (Some "a") false true "ftInt" 4;
                          column (Some "b") false false "ftVarchar" 5])]);
   (r_out_text, PDict [(PStr (str "queryTypeNamed"),
                        PList [column (Some "b") false false "ftVarchar" 5])]);
   (r_fetch1, PDict [(PStr (str "rows"), PInt 1);
                     (PStr (str "colSzs"), PList [PInt 5])]);
   (r_fetch2, PDict [(PStr (str "rows"), PInt 2);
                     (PStr (str "colSzs"), PList [PInt 2; PInt 8; PInt 10])]);
   (r_fetch0, PDict [(PStr (str "rows"), PInt 0);
                     (PStr (str "colSzs"), PList [])])].

(** [json.dumps] of the request to prepare a statement of plain text. *)
Definition dumps (v : pyval) : result (list Z) :=
  match v with
  | PDict [(_, PStr q); (_, PInt n)] =>
    Ok (lit "{'prepareStatement': '" ++ q ++ lit "', 'chunkSize': "
        ++ str_of_int n ++ lit "}")
  | _ => Raise TypeError
  end.

Definition lib (peer : list Z) : library := {|
  byte_order := LittleEndian;
  json_loads := table_loads table;
  json_dumps := dumps;
  str_other := fun _ => [];
  decode_other := fun _ _ => Raise LookupError;
  float_of_int := fun _ => Raise OverflowError;
  double_to_single := fun _ => Raise OverflowError;
  single_to_double := fun x => x;
  binop_other := fun _ _ _ => Raise TypeError;
  socket_connect := fun _ _ _ => Connected peer
|}.

(** A session that selects two rows of a nullable int and a varchar(5):
    [(7, 'ab')] and [(None, 'cd')]. *)
Definition select_peer : list Z :=
  frame r_connect ++ frame r_stmt ++ frame r_prep ++ frame r_exec
  ++ frame r_in_empty ++ frame r_out
  ++ frame r_fetch2 ++ [7; 2; 20; 0; 0; 0; 0; 0; 0; 0]
  ++ [0; 1] ++ [7; 0; 0; 0; 9; 0; 0; 0] ++ str "ab   cd   "
  ++ frame r_fetch0 ++ frame r_closed.

(** A session that inserts into a table of the same two columns. *)
Definition insert_peer : list Z :=
  frame r_connect ++ frame r_stmt ++ frame r_prep ++ frame r_exec
  ++ frame r_in ++ frame r_putted ++ frame r_closed.

Definition blank : Engine.Connection :=
  Engine.mkConnection ∅
    (Transport.mkSQSocket PNone PNone false [] [] PNone true) false false.

(** The connection [connect] returns against a peer, with the interval
    between reconnection attempts as given. *)
Definition connected (peer : list Z) (reconnect_interval : pyval)
  : result Engine.Connection :=
  connect (lib peer) false (PStr (str "127.0.0.1")) (PInt 5000)
          (PStr (str "master")) (PStr (str "sqream")) (PStr (str "sqream"))
          false false (PStr (str "sqream")) (PInt 3) reconnect_interval.

Definition session (peer : list Z) : Engine.Connection :=
  match connected peer (PInt 10) with
  | Ok c => c
  | Raise _ => blank
  end.

(** A socket connected to a peer, nothing sent yet. *)
Definition listening (peer : list Z) : Transport.SQSocket :=
  Transport.mkSQSocket (PStr (str "127.0.0.1")) (PInt 5000) false peer []
                       PNone false.

(** The bytes after the null bitmap of the true-varchar column
    ["x", "", None] packed: the length array [1, 0, 0] and the payload. *)
Definition lengths_and_payload : list Z :=
  Struct.to_bytes LittleEndian 4 1 ++ Struct.to_bytes LittleEndian 4 0
  ++ Struct.to_bytes LittleEndian 4 0 ++ [120].

(** The state a method leaves. *)
Definition after {A} (m : M Engine.Connection A) (c : Engine.Connection)
  : Engine.Connection := snd (m c).

(** The select session with its statement executed, then with the two
    rows fetched, then with the next batch asked for, then with the
    statement closed. *)
Definition selected : Engine.Connection :=
  after (Engine.execute (lib select_peer) (str "select 1") PNone)
        (session select_peer).

Definition fetched : Engine.Connection :=
  after (Engine.fetchmany (lib select_peer) (Some 2) (str "rows")) selected.



(** What the insert path packs for the bounded-text column of width 5
    that holds "ab", and a session in which the server sends those very
    bytes back as the one row of a select. *)
Definition packed_ab : list Z :=
  match Codec._pack_column (lib []) [PStr (str "ab")] 0 (str "ftVarchar") 5
                           false false with
  | Ok packed => packed
  | Raise _ => []
  end.

Definition text_peer : list Z :=
  frame r_connect ++ frame r_stmt ++ frame r_prep ++ frame r_exec
  ++ frame r_in_empty ++ frame r_out_text
  ++ frame r_fetch1 ++ [7; 2; 5; 0; 0; 0; 0; 0; 0; 0] ++ packed_ab
  ++ frame r_fetch0 ++ frame r_closed.

Definition text_selected : Engine.Connection :=
  after (Engine.execute (lib text_peer) (str "select b from t") PNone)
        (session text_peer).

Definition text_fetched : Engine.Connection :=
  after (Engine._fetch (lib text_peer)) text_selected.

(** A batch of two rows, of three items and of four. *)
Definition uneven : pyval :=
  PList [PTuple [PInt 1; PInt 2; PInt 3];
         PTuple [PInt 1; PInt 2; PInt 3; PInt 4]].

(** The insert session with its statement executed. *)
Definition inserting : Engine.Connection :=
  after (Engine.execute (lib insert_peer) (str "insert into t values (?,?)")
                        PNone)
        (session insert_peer).

End Script.

(** * Properties *)
(** ** The calendar codec *)

Module CalendarFacts.
Import Calendar.

Ltac divmod := Z.to_euclidean_division_equations; lia.

Lemma is_leap_spec y :
  is_leap y = true <-> (y mod 4 = 0 /\ (y mod 100 <> 0 \/ y mod 400 = 0)).
Proof.
  unfold is_leap.
  rewrite andb_true_iff, orb_true_iff, negb_true_iff, !Z.eqb_eq, Z.eqb_neq.
  tauto.
Qed.

(** A year from March to March has 366 days when the February that ends
    it is that of a leap year, and 365 otherwise. *)
Lemma year_length yr :
  days_before (yr + 1) - days_before yr = if is_leap (yr + 1) then 366 else 365.
Proof.
  destruct (is_leap (yr + 1)) eqn:E.
  - apply is_leap_spec in E. unfold days_before. divmod.
  - assert (H : ~ ((yr + 1) mod 4 = 0 /\
                   ((yr + 1) mod 100 <> 0 \/ (yr + 1) mod 400 = 0))).
    { intros H. apply is_leap_spec in H. congruence. }
    unfold days_before. divmod.
Qed.

(** The first guess of the year is the year or the one after. *)
Lemma year_estimate yr ddd :
  0 <= yr -> 0 <= ddd <= 365 ->
  let y' := (10000 * (days_before yr + ddd) + 14780) / 3652425 in
  y' = yr \/ y' = yr + 1.
Proof. intros Hy Hd. unfold days_before. divmod. Qed.

Lemma month_estimate mth dd :
  0 <= mth <= 11 -> 0 <= dd ->
  month_offset mth + dd < month_offset (mth + 1) ->
  (100 * (month_offset mth + dd) + 52) / 3060 = mth.
Proof.
  intros Hm Hd Hmo. unfold month_offset in *.
  assert (C : mth = 0 \/ mth = 1 \/ mth = 2 \/ mth = 3 \/ mth = 4 \/ mth = 5 \/
              mth = 6 \/ mth = 7 \/ mth = 8 \/ mth = 9 \/ mth = 10 \/ mth = 11) by lia.
  repeat destruct C as [C | C]; subst mth; divmod.
Qed.

(** Decoding a day count given by its parts. *)
Lemma sq_date_to_tuple_offsets {A} (f : Z -> Z -> Z -> result A) yr mth dd :
  0 <= yr -> 0 <= mth <= 11 -> 0 <= dd ->
  month_offset mth + dd < month_offset (mth + 1) ->
  days_before yr + (month_offset mth + dd) < days_before (yr + 1) ->
  sq_date_to_tuple f (Some (days_before yr + (month_offset mth + dd))) =
  (r <- f (yr + (mth + 2) / 12) ((mth + 2) mod 12 + 1) (dd + 1) ;; Ok (Some r)).
Proof.
  intros Hy Hm Hd Hmo Hyr.
  pose proof (month_estimate mth dd Hm Hd Hmo) as E3.
  pose proof (year_length yr) as HL.
  set (ddd := month_offset mth + dd) in *.
  assert (Hddd : 0 <= ddd <= 365).
  { split; [unfold ddd, month_offset; divmod|]. destruct (is_leap (yr + 1)); lia. }
  pose proof (year_estimate yr ddd Hy Hddd) as HY. cbv zeta in HY.
  unfold sq_date_to_tuple.
  set (g := days_before yr + ddd) in *.
  set (y' := (10000 * g + 14780) / 3652425) in *.
  fold (days_before y'). fold (days_before (y' - 1)).
  destruct HY as [-> | ->].
  - replace (g - days_before yr) with ddd by (unfold g; lia).
    destruct (Z.ltb_spec ddd 0) as [?|_]; [lia|].
    rewrite E3. fold (month_offset mth).
    replace (ddd - month_offset mth + 1) with (dd + 1) by (unfold ddd; lia).
    reflexivity.
  - destruct (Z.ltb_spec (g - days_before (yr + 1)) 0) as [_|?]; [|lia].
    replace (yr + 1 - 1) with yr by lia.
    replace (g - days_before yr) with ddd by (unfold g; lia).
    rewrite E3. fold (month_offset mth).
    replace (ddd - month_offset mth + 1) with (dd + 1) by (unfold ddd; lia).
    reflexivity.
Qed.

Lemma date_tuple_to_int_offsets y m d :
  date_tuple_to_int y m d =
  days_before (y - (m + 9) mod 12 / 10)
  + (month_offset ((m + 9) mod 12) + (d - 1)).
Proof. unfold date_tuple_to_int, days_before, month_offset. lia. Qed.

(** Decoding an encoded date hands the converter the very components. *)
Lemma sq_date_to_tuple_date_tuple_to_int {A} (f : Z -> Z -> Z -> result A) y m d :
  1 <= y -> gregorian y m d ->
  sq_date_to_tuple f (Some (date_tuple_to_int y m d)) =
  (r <- f y m d ;; Ok (Some r)).
Proof.
  intros Hy [Hm Hd].
  rewrite date_tuple_to_int_offsets.
  set (mth := (m + 9) mod 12). set (yr := y - mth / 10).
  assert (C : m = 1 \/ m = 2 \/ m = 3 \/ m = 4 \/ m = 5 \/ m = 6 \/
              m = 7 \/ m = 8 \/ m = 9 \/ m = 10 \/ m = 11 \/ m = 12) by lia.
  assert (Hyr : y = yr + (mth + 2) / 12) by (unfold yr, mth; divmod).
  assert (Hmm : m = (mth + 2) mod 12 + 1) by (unfold mth; divmod).
  assert (E : f y m d = f (yr + (mth + 2) / 12) ((mth + 2) mod 12 + 1) (d - 1 + 1))
    by (f_equal; lia).
  rewrite E. clear E.
  pose proof (year_length yr) as HL.
  apply sq_date_to_tuple_offsets.
  - unfold yr, mth; divmod.
  - unfold mth; divmod.
  - lia.
  - unfold days_in_month in Hd. unfold month_offset, mth.
    repeat destruct C as [C | C]; subst m; cbv [Z.eqb Pos.eqb orb] in Hd;
      try divmod.
    destruct (is_leap y); divmod.
  - unfold days_in_month in Hd.
    assert (Hy1 : m = 1 \/ m = 2 -> yr + 1 = y) by (unfold yr, mth; divmod).
    destruct (Z.eq_dec m 2) as [-> | Hm2].
    + rewrite Hy1 in HL |- * by lia. cbv [Z.eqb Pos.eqb] in Hd.
      unfold month_offset, mth. destruct (is_leap y); divmod.
    + assert (Hd31 : d <= 31).
      { destruct (m =? 2); [destruct (is_leap y); lia|].
        destruct ((m =? 4) || (m =? 6) || (m =? 9) || (m =? 11)); lia. }
      assert (Hd1 : m = 1 \/ d <= 30 \/ m = 3 \/ m = 5 \/ m = 7 \/ m = 8
                    \/ m = 10 \/ m = 12).
      { repeat destruct C as [C | C]; subst m; cbv [Z.eqb Pos.eqb orb] in Hd; lia. }
      unfold month_offset, mth. destruct (is_leap (yr + 1)); divmod.
Qed.

Lemma valid_ymd_true y m d :
  1 <= y <= 9999 -> gregorian y m d -> valid_ymd y m d = true.
Proof.
  intros Hy [Hm Hd]. unfold valid_ymd, MINYEAR, MAXYEAR.
  repeat (apply andb_true_intro; split); apply Z.leb_le; lia.
Qed.

(** C1: for every date of the Gregorian calendar from year 1 to year
    9999, decoding the day count [date_tuple_to_int] encodes it to gives
    back the year, the month and the day, as a triple and as the
    [datetime.date] the driver builds. *)
Theorem date_round_trip y m d :
  1 <= y <= 9999 -> gregorian y m d ->
  sq_date_to_tuple as_triple (Some (date_tuple_to_int y m d)) = Ok (Some (y, m, d))
  /\ sq_date_to_tuple py_date (Some (date_tuple_to_int y m d))
     = Ok (Some (mkdate y m d)).
Proof.
  intros Hy Hg. split.
  - rewrite sq_date_to_tuple_date_tuple_to_int by (lia || assumption).
    reflexivity.
  - rewrite sq_date_to_tuple_date_tuple_to_int by (lia || assumption).
    unfold py_date. rewrite valid_ymd_true by assumption. reflexivity.
Qed.

Lemma date_round_trip_leap_day :
  sq_date_to_tuple as_triple (Some (date_tuple_to_int 2024 2 29))
  = Ok (Some (2024, 2, 29))
  /\ sq_date_to_tuple py_date (Some (date_tuple_to_int 2024 2 29))
     = Ok (Some (mkdate 2024 2 29)).
Proof.
  apply (date_round_trip 2024 2 29); [lia | split; vm_compute; intuition discriminate].
Defined.

Lemma datetime_tuple_to_long_split y m d h mi s us :
  datetime_tuple_to_long y m d h mi s us =
  date_tuple_to_int y m d * 2 ^ 32 +
  (h * 3600 * 1000 + mi * 60 * 1000 + s * 1000 + us / 1000).
Proof.
  unfold datetime_tuple_to_long, date_tuple_to_int.
  rewrite Z.shiftl_mul_pow2 by lia. reflexivity.
Qed.

Lemma high_low (a t : Z) :
  0 <= t < 2 ^ 32 ->
  Z.shiftr (a * 2 ^ 32 + t) 32 = a /\ Z.land (a * 2 ^ 32 + t) 0xffffffff = t.
Proof.
  intros Ht. split.
  - rewrite Z.shiftr_div_pow2 by lia. divmod.
  - change 0xffffffff with (Z.ones 32). rewrite Z.land_ones by lia. divmod.
Qed.

Lemma sq_datetime_to_tuple_datetime_tuple_to_long {A}
    (f : Z -> Z -> Z -> Z -> Z -> Z -> Z -> result A) y m d h mi s ms :
  1 <= y <= 9999 -> gregorian y m d ->
  0 <= h < 24 -> 0 <= mi < 60 -> 0 <= s < 60 -> 0 <= ms < 1000 ->
  sq_datetime_to_tuple f (Some (datetime_tuple_to_long y m d h mi s (ms * 1000))) =
  (r <- f y m d h mi s ms ;; Ok (Some r)).
Proof.
  intros Hy Hg Hh Hmi Hs Hms.
  unfold sq_datetime_to_tuple.
  rewrite datetime_tuple_to_long_split.
  set (t := h * 3600 * 1000 + mi * 60 * 1000 + s * 1000 + ms * 1000 / 1000).
  assert (Et : t = h * 3600000 + mi * 60000 + s * 1000 + ms) by (unfold t; divmod).
  assert (Ht : 0 <= t < 2 ^ 32) by lia.
  destruct (high_low (date_tuple_to_int y m d) t Ht) as [-> ->].
  rewrite sq_date_to_tuple_date_tuple_to_int by (tauto || lia).
  unfold py_date. rewrite valid_ymd_true by assumption. cbn [bind year month day].
  assert (E : f y m d (t / 1000 / 60 / 60) ((t / 1000 / 60) mod 60)
                ((t / 1000) mod 60) (t mod 1000) = f y m d h mi s ms).
  { f_equal; divmod. }
  rewrite E. reflexivity.
Qed.

(** C2: for every date of the Gregorian calendar from year 1 to year
    9999 and every time of day to the millisecond, the long
    [datetime_tuple_to_long] makes of them and of [ms * 1000]
    microseconds holds the day count in its high 32 bits and the
    milliseconds since midnight in its low 32 bits, and
    [sq_datetime_to_tuple] gives back the seven components. *)
Theorem datetime_round_trip y m d h mi s ms :
  1 <= y <= 9999 -> gregorian y m d ->
  0 <= h < 24 -> 0 <= mi < 60 -> 0 <= s < 60 -> 0 <= ms < 1000 ->
  let long := datetime_tuple_to_long y m d h mi s (ms * 1000) in
  Z.shiftr long 32 = date_tuple_to_int y m d
  /\ Z.land long 0xffffffff = h * 3600000 + mi * 60000 + s * 1000 + ms
  /\ sq_datetime_to_tuple as_tuple7 (Some long) = Ok (Some (y, m, d, h, mi, s, ms))
  /\ sq_datetime_to_tuple py_datetime (Some long)
     = Ok (Some (mkdatetime y m d h mi s ms)).
Proof.
  intros Hy Hg Hh Hmi Hs Hms long. subst long.
  assert (Ht : 0 <= h * 3600 * 1000 + mi * 60 * 1000 + s * 1000 + ms * 1000 / 1000
               < 2 ^ 32) by divmod.
  repeat split.
  - rewrite datetime_tuple_to_long_split. apply (high_low _ _ Ht).
  - rewrite datetime_tuple_to_long_split.
    rewrite (proj2 (high_low _ _ Ht)). divmod.
  - rewrite sq_datetime_to_tuple_datetime_tuple_to_long by assumption.
    reflexivity.
  - rewrite sq_datetime_to_tuple_datetime_tuple_to_long by assumption.
    unfold py_datetime. rewrite valid_ymd_true by assumption.
    rewrite !(proj2 (Z.leb_le _ _)), !(proj2 (Z.ltb_lt _ _)) by lia.
    reflexivity.
Qed.

Lemma datetime_round_trip_last_millisecond :
  let long := datetime_tuple_to_long 1999 12 31 23 59 59 (999 * 1000) in
  Z.shiftr long 32 = date_tuple_to_int 1999 12 31
  /\ Z.land long 0xffffffff = 23 * 3600000 + 59 * 60000 + 59 * 1000 + 999
  /\ sq_datetime_to_tuple as_tuple7 (Some long)
     = Ok (Some (1999, 12, 31, 23, 59, 59, 999))
  /\ sq_datetime_to_tuple py_datetime (Some long)
     = Ok (Some (mkdatetime 1999 12 31 23 59 59 999)).
Proof.
  apply (datetime_round_trip 1999 12 31 23 59 59 999);
    [lia | split; vm_compute; intuition discriminate | lia | lia | lia | lia].
Defined.

End CalendarFacts.

(** ** The packing of columns *)

Module CodecFacts.
Import Py.

Lemma mmap_positive n : 0 < n -> Codec.mmap n = Ok (Codec.mkbuffer n []).
Proof.
  intros H. unfold Codec.mmap.
  destruct (Z.ltb_spec n 0); [lia|]. destruct (Z.eqb_spec n 0); [lia|]. reflexivity.
Qed.

(** The buffer of a column of non-negative width holds 100000 bytes at
    the least. *)
Lemma buffer_size (nullable : bool) size :
  0 <= size ->
  100000 <= ((if nullable then 1 else 0) + (if negb (size =? 0) then size else 104))
            * ROWS_PER_FLUSH.
Proof.
  intros H. unfold ROWS_PER_FLUSH.
  destruct (Z.eqb_spec size 0); destruct nullable; cbn [negb]; lia.
Qed.

Lemma not_exceeds n B w : n <= B -> Codec.exceeds n (Codec.mkbuffer B w) = false.
Proof. intros H. unfold Codec.exceeds. cbn. apply Z.ltb_ge. lia. Qed.

Lemma contents_written B w n :
  n = len w -> n <= B -> Codec.contents (Codec.mkbuffer B w) n = w.
Proof.
  intros -> H. unfold Codec.contents. cbn [Codec.buf_len Codec.written].
  rewrite Z.min_l by lia. rewrite Z.sub_diag. cbn [Z.to_nat repeat].
  rewrite app_nil_r. unfold len. rewrite Nat2Z.id. apply firstn_all.
Qed.

Lemma pack_into_fits L fmt B w values n k bytes :
  Struct.calcsize fmt = Some n ->
  len w + Z.of_nat n * len values = k -> k <= B ->
  Struct.pack L fmt values = Ok bytes ->
  Codec.pack_into L fmt (Codec.mkbuffer B w) values
  = Ok (Codec.mkbuffer B (w ++ bytes)).
Proof.
  intros Hn Hk HB Hp. unfold Codec.pack_into. rewrite Hn.
  cbn [Codec.written Codec.buf_len]. rewrite Hk, not_exceeds by lia.
  rewrite Hp. reflexivity.
Qed.

Lemma write_fits B w data k :
  len w + len data = k -> k <= B ->
  Codec.write (Codec.mkbuffer B w) data = Ok (Codec.mkbuffer B (w ++ data)).
Proof.
  intros Hk HB. unfold Codec.write. cbn [Codec.written Codec.buf_len].
  rewrite Hk, not_exceeds by lia. reflexivity.
Qed.

(** One step of a packing into a buffer of a length [B] that is only
    known to be large enough: what does not depend on [B] is evaluated,
    and every write is shown to fit. *)
Ltac eval_closed t :=
  let v := eval vm_compute in t in change t with v.

Ltac pack_step :=
  match goal with
  | |- context [type_to_letter ?x] => eval_closed (type_to_letter x)
  | |- context [pystr_eqb ?a ?b] => eval_closed (pystr_eqb a b)
  | |- context [existsb ?f ?l] => eval_closed (existsb f l)
  | |- context [@Struct.traverse ?A ?B ?f ?l] =>
    eval_closed (@Struct.traverse A B f l)
  | |- context [@concat ?A ?l] => eval_closed (@concat A l)
  | |- context [@map ?A ?B ?f ?l] => eval_closed (@map A B f l)
  | |- context [Codec.pack_into ?L ?f (Codec.mkbuffer ?B ?w) ?v] =>
    erewrite (pack_into_fits L f B w v)
      by first [vm_compute; reflexivity | lia]
  | |- context [Codec.write (Codec.mkbuffer ?B ?w) ?d] =>
    erewrite (write_fits B w d) by first [vm_compute; reflexivity | lia]
  | |- context [Codec.exceeds ?n (Codec.mkbuffer ?B ?w)] =>
    let n' := eval vm_compute in n in
    change n with n'; rewrite (not_exceeds n' B w) by lia
  | |- context [Codec.contents (Codec.mkbuffer ?B ?w) ?n] =>
    let n' := eval vm_compute in n in
    let w' := eval vm_compute in w in
    change n with n'; change w with w';
    rewrite (contents_written B w' n') by (reflexivity || lia)
  end;
  cbv beta iota zeta delta [bind Codec.buf_len Codec.written negb].

Ltac pack_column size nullable Hsize :=
  let HB := fresh "HB" in
  let B := fresh "B" in
  pose proof (buffer_size nullable size Hsize) as HB;
  unfold Codec._pack_column;
  rewrite mmap_positive by lia;
  set (B := _ * ROWS_PER_FLUSH) in *; clearbody B;
  cbv beta iota zeta delta [bind];
  repeat pack_step.

(** C5: on a little-endian machine, packing the nullable Int column
    [1, None, 3] of byte width 4 gives the null bitmap [0, 1, 0] followed
    by the 4-byte little-endian encodings of 1, 0 and 3, fifteen bytes in
    all. *)
Theorem pack_nullable_int (L : library) (col_idx : Z) :
  byte_order L = LittleEndian ->
  exists packed,
    Codec._pack_column L [PInt 1; PNone; PInt 3] col_idx (str "ftInt") 4 true false
    = Ok packed
    /\ packed = [0; 1; 0] ++ Struct.to_bytes LittleEndian 4 1
                ++ Struct.to_bytes LittleEndian 4 0
                ++ Struct.to_bytes LittleEndian 4 3
    /\ packed = [0; 1; 0; 1; 0; 0; 0; 0; 0; 0; 0; 3; 0; 0; 0]
    /\ firstn 3 packed = [0; 1; 0]
    /\ len packed = 3 + 3 * 4.
Proof.
  intros H. destruct L; cbn in H; subst.
  eexists. split; [vm_compute; reflexivity|].
  repeat split.
Qed.

Lemma pack_nullable_int_scripted :
  exists packed,
    Codec._pack_column (Script.lib []) [PInt 1; PNone; PInt 3] 0 (str "ftInt")
                       4 true false = Ok packed
    /\ packed = [0; 1; 0] ++ Struct.to_bytes LittleEndian 4 1
                ++ Struct.to_bytes LittleEndian 4 0
                ++ Struct.to_bytes LittleEndian 4 3
    /\ packed = [0; 1; 0; 1; 0; 0; 0; 0; 0; 0; 0; 3; 0; 0; 0]
    /\ firstn 3 packed = [0; 1; 0]
    /\ len packed = 3 + 3 * 4.
Proof. apply (pack_nullable_int (Script.lib []) 0). reflexivity. Defined.

(** C6: on a little-endian machine, packing the true-varchar column
    ["x", "", None] gives, after the null bitmap [0, 0, 1] when the
    column is nullable, the length array [1, 0, 0] of 4-byte signed
    integers and then a payload of the one byte that is "x" in UTF-8.
    The column ["x", None, ""] packs to the same bytes but for the
    bitmap, which is then [0, 1, 0]: a null row and an empty string both
    have length 0 and no payload, and when the column is not nullable
    the two columns pack to the same bytes. *)
Theorem pack_true_varchar (L : library) (col_idx size : Z) (nullable : bool) :
  byte_order L = LittleEndian -> 0 <= size ->
  Codec._pack_column L [PStr (str "x"); PStr []; PNone] col_idx (str "ftBlob")
                     size nullable true
  = Ok ((if nullable then [0; 0; 1] else []) ++ Script.lengths_and_payload)
  /\ Codec._pack_column L [PStr (str "x"); PNone; PStr []] col_idx (str "ftBlob")
                        size nullable true
     = Ok ((if nullable then [0; 1; 0] else []) ++ Script.lengths_and_payload)
  /\ Struct.cast L "i" (firstn 12 Script.lengths_and_payload)
     = Ok (PArray "i" [PInt 1; PInt 0; PInt 0])
  /\ skipn 12 Script.lengths_and_payload = [120]
  /\ encode_utf8 (str "x") = Ok [120].
Proof.
  intros HL Hs. destruct L; cbn in HL; subst.
  repeat split; try reflexivity.
  - destruct nullable;
      [pack_column size true Hs | pack_column size false Hs]; reflexivity.
  - destruct nullable;
      [pack_column size true Hs | pack_column size false Hs]; reflexivity.
Qed.

Lemma pack_true_varchar_scripted :
  Codec._pack_column (Script.lib []) [PStr (str "x"); PStr []; PNone] 0
                     (str "ftBlob") 0 true true
  = Ok ([0; 0; 1] ++ Script.lengths_and_payload)
  /\ Codec._pack_column (Script.lib []) [PStr (str "x"); PNone; PStr []] 0
                        (str "ftBlob") 0 true true
     = Ok ([0; 1; 0] ++ Script.lengths_and_payload)
  /\ Struct.cast (Script.lib []) "i" (firstn 12 Script.lengths_and_payload)
     = Ok (PArray "i" [PInt 1; PInt 0; PInt 0])
  /\ skipn 12 Script.lengths_and_payload = [120]
  /\ encode_utf8 (str "x") = Ok [120].
Proof.
  apply (pack_true_varchar (Script.lib []) 0 0 true); [reflexivity | lia].
Defined.

(** The bounded-text column of width 5 that holds "ab" packs to "ab"
    and three spaces. *)
Lemma pack_varchar_ab (L : library) (col_idx : Z) :
  Codec._pack_column L [PStr (str "ab")] col_idx (str "ftVarchar") 5 false false
  = Ok (str "ab   ").
Proof. vm_compute. reflexivity. Qed.

End CodecFacts.

(** ** The framing of responses *)

Module TransportFacts.
Import Py Transport.

Lemma len_app {A} (a b : list A) : len (a ++ b) = len a + len b.
Proof. unfold len. rewrite length_app. lia. Qed.

Lemma len_nonneg {A} (a : list A) : 0 <= len a.
Proof. unfold len. lia. Qed.

(** A read of [n] bytes the peer has sent takes them off what is left to
    read and touches nothing else. *)
Lemma receive_available s n a b :
  closed s = false -> inbound s = a ++ b -> len a = n ->
  receive n PNone s = (Ok a, set_inbound b s).
Proof.
  intros Hc Hi Hn. unfold receive. cbn [py_truthy].
  pose proof (len_nonneg a).
  destruct (Z.ltb_spec n 0); [lia|].
  destruct (Z.eqb_spec n 0) as [E|E].
  - assert (a = []) as -> by (destruct a; [reflexivity | unfold len in *; cbn in *; lia]).
    cbn in Hi. subst b. destruct s; reflexivity.
  - rewrite Hc. rewrite Hi, len_app.
    pose proof (len_nonneg b).
    destruct (Z.leb_spec n (len a + len b)); [|lia].
    assert (El : Z.to_nat n = length a) by (unfold len in Hn; lia).
    rewrite El, firstn_app, Nat.sub_diag, firstn_all, skipn_app, Nat.sub_diag,
      skipn_all. cbn [firstn skipn]. rewrite app_nil_r. reflexivity.
Qed.

Lemma set_inbound_twice a b s : set_inbound a (set_inbound b s) = set_inbound a s.
Proof. reflexivity. Qed.

(** C8: a response starts with a header of ten bytes.  When its byte 0
    is neither 6 nor 7, the version before the current one and the
    current one, the protocol mismatch is raised.  Otherwise its bytes 2
    to 10 are read as a signed integer of 8 bytes in the byte order of
    the machine, and exactly that many bytes are then taken from the
    peer: they are the response, decoded as UTF-8 when it is a text. *)
Theorem get_response_framing (L : library) (s : SQSocket)
    (version kind l0 l1 l2 l3 l4 l5 l6 l7 : Z) (rest : list Z) :
  closed s = false ->
  inbound s = version :: kind :: [l0; l1; l2; l3; l4; l5; l6; l7] ++ rest ->
  let message_len :=
    Struct.from_bytes (byte_order L) true [l0; l1; l2; l3; l4; l5; l6; l7] in
  (version <> PROTOCOL_VERSION - 1 -> version <> PROTOCOL_VERSION ->
   forall is_text_msg,
     get_response L is_text_msg s
     = (Raise (Exception_ ("Protocol mismatch, client version - 7, server version - "
                           ++ decimal version)),
        set_inbound rest s))
  /\ (version = PROTOCOL_VERSION - 1 \/ version = PROTOCOL_VERSION ->
      0 <= message_len <= len rest ->
      let payload := firstn (Z.to_nat message_len) rest in
      len payload = message_len
      /\ get_response L false s
         = (Ok (PBytes payload), set_inbound (skipn (Z.to_nat message_len) rest) s)
      /\ get_response L true s
         = (match decode_utf8 payload with
            | Ok text => Ok (PStr text)
            | Raise e => Raise e
            end,
            set_inbound (skipn (Z.to_nat message_len) rest) s)).
Proof.
  intros Hc Hi message_len.
  assert (Hh : receive 10 PNone s
               = (Ok [version; kind; l0; l1; l2; l3; l4; l5; l6; l7],
                  set_inbound rest s)).
  { apply receive_available; [assumption | rewrite Hi; reflexivity | reflexivity]. }
  assert (Hu : Struct.unpack L "q" (slice [version; kind; l0; l1; l2; l3; l4; l5; l6; l7]
                                          (Some 2) (Some 10))
               = Ok (PInt message_len)) by reflexivity.
  unfold PROTOCOL_VERSION. split.
  - intros H6 H7 is_text_msg.
    unfold get_response, mbind_. rewrite Hh. cbn [pure_ index].
    change (index [version; kind; l0; l1; l2; l3; l4; l5; l6; l7] 0) with (Ok version).
    cbv beta iota.
    destruct (Z.eqb_spec version 6); [lia|]. destruct (Z.eqb_spec version 7); [lia|].
    reflexivity.
  - cbv zeta. intros Hv [Hlo Hhi].
    set (payload := firstn (Z.to_nat message_len) rest).
    assert (Hp : len payload = message_len).
    { unfold payload, len. rewrite firstn_length_le; unfold len in Hhi; lia. }
    assert (Hr : receive message_len PNone (set_inbound rest s)
                 = (Ok payload,
                    set_inbound (skipn (Z.to_nat message_len) rest) s)).
    { apply (receive_available (set_inbound rest s) message_len payload
                               (skipn (Z.to_nat message_len) rest));
        [exact Hc | | exact Hp].
      unfold payload. cbn. symmetry. apply firstn_skipn. }
    assert (Hok : negb ((version =? 6) || (version =? 7)) = false).
    { destruct Hv as [-> | ->]; reflexivity. }
    split; [exact Hp|].
    split; unfold get_response, mbind_; rewrite Hh; cbn [pure_];
      change (index [version; kind; l0; l1; l2; l3; l4; l5; l6; l7] 0)
        with (Ok version);
      cbv beta iota; rewrite Hok, Hu; cbv beta iota; rewrite Hr.
    + reflexivity.
    + cbv beta iota. unfold pure_, ret. destruct (decode_utf8 payload); reflexivity.
Qed.

Lemma get_response_framing_scripted :
  let s := Script.listening ([7; 1; 17; 0; 0; 0; 0; 0; 0; 0]
                             ++ Script.r_stmt ++ [9; 9]) in
  closed s = false
  /\ get_response (Script.lib []) true s
     = (Ok (PStr Script.r_stmt), set_inbound [9; 9] s).
Proof.
  intros s. split; [reflexivity|].
  pose proof (get_response_framing (Script.lib []) s 7 1 17 0 0 0 0 0 0 0
                (Script.r_stmt ++ [9; 9]) eq_refl eq_refl) as [_ H].
  destruct (H (or_intror eq_refl)) as (_ & _ & Ht).
  - vm_compute. split; discriminate.
  - exact Ht.
Defined.

End TransportFacts.

(** ** The connection *)

Module EngineFacts.
Import Py Engine.

Section WithLibrary.
Context (L : library).

(** *** Running a method step by step *)

Lemma getattr_Some name c v :
  attrs c !! name = Some v -> getattr name c = (Ok v, c).
Proof. intros H. unfold getattr. rewrite H. reflexivity. Qed.

Ltac solve_lookup :=
  cbn [attrs set_attrs];
  rewrite ?lookup_insert_ne by discriminate;
  first [eassumption | rewrite lookup_insert_eq; reflexivity].

(** The attribute the method reads next. *)
Ltac tidy :=
  cbv beta iota;
  cbn [attrs set_attrs s set_s pool set_pool base_conn_open negb andb orb];
  cbv beta iota.

Ltac attr :=
  match goal with
  | |- context [getattr ?n ?c] =>
    erewrite (getattr_Some n c); [| solve_lookup]
  end;
  tidy.

Ltac run H := rewrite H; tidy.

(** [self.name = v] *)
Ltac assign :=
  unfold setattr at 1; unfold modify; tidy.


Lemma _verify_open_ok c v :
  base_conn_open c = true -> attrs c !! "closed" = Some v -> py_truthy v = false ->
  _verify_open c = (Ok tt, c).
Proof.
  intros Hb Hc Hv. unfold _verify_open, mbind_, get. rewrite Hb. cbn [negb].
  attr. rewrite Hv. reflexivity.
Qed.

(** Once [more_to_fetch] is [False], [fetchmany] returns the empty list
    and leaves the connection, its socket included, as it was. *)
Lemma fetchmany_exhausted c size data_as closed arraysize :
  base_conn_open c = true ->
  attrs c !! "closed" = Some closed -> py_truthy closed = false ->
  attrs c !! "arraysize" = Some arraysize ->
  attrs c !! "more_to_fetch" = Some (PBool false) ->
  fetchmany L size data_as c = (Ok (PList []), c).
Proof.
  intros Hb Hc Hv Ha Hm. unfold fetchmany, mbind_.
  assert (E : exists v, match size with
                        | Some n => if negb (n =? 0) then ret (PInt n)
                                    else getattr "arraysize"
                        | None => getattr "arraysize"
                        end c = (Ok v, c)).
  { destruct size as [n|]; [destruct (negb (n =? 0))|];
      try (eexists; reflexivity); eexists; apply getattr_Some; eassumption. }
  destruct E as [v E]. run E.
  run (_verify_open_ok c closed Hb Hc Hv).
  attr. reflexivity.
Qed.





Lemma _verify_query_type_ok c v :
  attrs c !! "open_statement" = Some v -> py_truthy v = true ->
  _verify_query_type c = (Ok tt, c).
Proof.
  intros H Hv. unfold _verify_query_type, mbind_. attr. rewrite Hv. reflexivity.
Qed.


Lemma slice_bound_0 n : 0 <= n -> slice_bound n 0 = 0%nat.
Proof.
  intros H. unfold slice_bound. change (0 <? 0) with false. cbv beta iota.
  rewrite Z.min_r, Z.max_l by lia. reflexivity.
Qed.



Lemma fetchmany_return size res (c : Connection) :
  (if negb (size =? 1) then
     ret (if py_truthy (PList res) then PList res else PList [])
   else
     if py_truthy (PList res) then pure_ (py_getitem (PList res) (PInt 0))
     else ret PNone) c
  = (Ok (returned size res), c).
Proof.
  unfold returned. destruct (size =? 1); cbn [negb];
    destruct res as [|r res']; reflexivity.
Qed.


Lemma slice_first (l : list pyval) :
  match slice l (Some 0) (Some 1) with r :: _ => r | [] => PNone end
  = match l with r :: _ => r | [] => PNone end.
Proof.
  destruct l as [|r l]; [reflexivity|].
  unfold slice. rewrite slice_bound_0 by apply TransportFacts.len_nonneg.
  rewrite Nat.sub_0_r. cbn [skipn].
  assert (E : slice_bound (len (r :: l)) 1 = 1%nat).
  { unfold slice_bound. change (1 <? 0) with false. cbv beta iota.
    pose proof (TransportFacts.len_nonneg l).
    assert (len (r :: l) = 1 + len l) by (unfold len; cbn [length]; lia).
    rewrite Z.min_r, Z.max_r by lia. reflexivity. }
  rewrite E. reflexivity.
Qed.

(** A step that does not touch the state, on values that are known. *)
Ltac calc :=
  match goal with
  | |- context [pure_ ?r ?c] =>
    let v := eval vm_compute in r in
    change (pure_ r c) with (@pure_ Connection _ v c)
  end;
  unfold pure_ at 1; tidy.

(** A test on values that are known. *)
Ltac cond :=
  match goal with
  | |- context [key_eqb ?a ?b] =>
    let v := eval vm_compute in (key_eqb a b) in change (key_eqb a b) with v
  | |- context [py_truthy ?a] =>
    let v := eval vm_compute in (py_truthy a) in change (py_truthy a) with v
  | |- context [as_int ?a] =>
    let v := eval vm_compute in (as_int a) in change (as_int a) with v
  end;
  tidy.

Ltac steps :=
  repeat first
    [ attr | calc | cond
    | progress (cbn [map_each for_each ret]; unfold mbind_; tidy)
    | progress (unfold append_attr; unfold mbind_; tidy)
    | progress assign ].

(** C7: the bounded-text column of width 5 that holds "ab" packs to
    the five bytes of "ab" and three spaces, and a payload of those bytes
    parses, under the same descriptor and the encoding of the packing,
    to the column that holds "ab". *)
Theorem bounded_text_round_trip (col_idx : Z) (c : Connection) (scale : pyval) :
  attrs c !! "col_type_tups"
  = Some (PTuple [PList [PStr (str "ftVarchar"); PInt 5; scale]]) ->
  attrs c !! "col_nul" = Some (PTuple [PBool false]) ->
  attrs c !! "col_tvc" = Some (PTuple [PBool false]) ->
  attrs c !! "varchar_enc" = Some (PStr (str "ascii")) ->
  attrs c !! "data_columns" = Some (PList [PList [PBytes (str "ab   ")]]) ->
  Codec._pack_column L [PStr (str "ab")] col_idx (str "ftVarchar") 5 false false
  = Ok (str "ab   ")
  /\ len (str "ab   ") = 5
  /\ rstrip_by py_isspace (rstrip_by (fun ch => ch =? 0) (str "ab   ")) = str "ab"
  /\ fst (_parse_fetched_cols L c) = Ok (PList [PList [PStr (str "ab")]]).
Proof.
  intros Ht Hn Hv He Hd.
  split; [apply CodecFacts.pack_varchar_ab|].
  split; [reflexivity|]. split; [reflexivity|].
  unfold _parse_fetched_cols, mbind_. assign. attr. cond. calc.
  cbn [length seq map combine for_each]. unfold mbind_.
  unfold parse_column at 1. unfold mbind_.
  steps. reflexivity.
Qed.

Lemma _verify_open_state c : snd (_verify_open c) = c.
Proof.
  unfold _verify_open, mbind_, get, getattr, raise, ret.
  destruct (negb (base_conn_open c)); [reflexivity|].
  destruct (attrs c !! "closed") as [v|]; [|reflexivity].
  destruct (py_truthy v); reflexivity.
Qed.

(** Two different lengths among those of the sequences make more than
    one distinct length. *)
Lemma distinct_lengths_fold seen l :
  NoDup seen ->
  let r := fold_left (fun seen n => if existsb (Z.eqb n) seen then seen
                                    else seen ++ [n]) l seen in
  NoDup r /\ (forall x, In x seen \/ In x l -> In x r).
Proof.
  revert seen. induction l as [|n l IH]; intros seen Hn; cbn [fold_left].
  - split; [assumption|]. intros x [H|[]]. assumption.
  - destruct (existsb (Z.eqb n) seen) eqn:E.
    + destruct (IH seen Hn) as [H1 H2]. split; [exact H1|].
      intros x [H|[<-|H]]; apply H2; auto.
      left. apply existsb_exists in E. destruct E as (y & Hy & Ey).
      apply Z.eqb_eq in Ey. subst. assumption.
    + assert (Hn' : NoDup (seen ++ [n])).
      { apply NoDup_app. split; [assumption|]. split; [|apply NoDup_singleton].
        intros x Hx Hx'. apply list_elem_of_In in Hx, Hx'.
        destruct Hx' as [<-|[]].
        assert (existsb (Z.eqb n) seen = true); [|congruence].
        apply existsb_exists. exists n. split; [assumption|apply Z.eqb_refl]. }
      destruct (IH _ Hn') as [H1 H2]. split; [exact H1|].
      intros x [H|[<-|H]]; apply H2; auto; left; apply in_or_app; cbn; auto.
Qed.

Lemma distinct_lengths_two lengths a b :
  In a lengths -> In b lengths -> a <> b -> 1 < distinct_lengths lengths.
Proof.
  intros Ha Hb Hab. unfold distinct_lengths.
  destruct (distinct_lengths_fold [] lengths (NoDup_nil_2 (A:=Z))) as [Hn Hin].
  cbv zeta in Hn, Hin.
  set (r := fold_left _ lengths []) in *.
  assert (Ia : In a r) by auto. assert (Ib : In b r) by auto.
  destruct r as [|x [|y r]]; cbn in Ia, Ib.
  - contradiction.
  - intuition congruence.
  - unfold len. cbn [length]. lia.
Qed.

(** C3, as the driver has it: a batch whose sequences have different
    lengths is refused with the usage error when the statement has been
    prepared and executed on the server, and before anything of the
    insert is sent: the connection is left as [execute] left it. *)
Theorem inconsistent_batch_refused (c c1 : Connection) (query data_as : list Z)
    (rows_or_cols amount first : pyval) (items : list pyval)
    (lengths : list Z) (a b : Z) :
  execute L query PNone c = (Ok tt, c1) ->
  py_getitem rows_or_cols (PInt 0) = Ok first ->
  py_iter rows_or_cols = Ok items ->
  Struct.traverse py_len items = Ok lengths ->
  In a lengths -> In b lengths -> a <> b ->
  executemany L query rows_or_cols data_as amount c
  = (Raise (ProgrammingError
              "Incosistent data sequences passed for inserting. Please use rows/columns of consistent length"),
     c1).
Proof.
  intros He Hf Hi Hl Ha Hb Hab.
  assert (Hv : _verify_open c = (Ok tt, c)).
  { pose proof (_verify_open_state c) as Hs.
    unfold execute in He. unfold mbind_ at 1 in He.
    destruct (_verify_open c) as [[[]|e] c0]; cbn in Hs; subst c0;
      [reflexivity | discriminate]. }
  unfold executemany. unfold mbind_ at 1. run Hv.
  unfold mbind_ at 1. run He.
  assert (Hn : is_None rows_or_cols = false).
  { destruct rows_or_cols; try reflexivity. discriminate. }
  rewrite Hn. unfold mbind_, pure_. run Hf. run Hi. run Hl.
  rewrite (proj2 (Z.ltb_lt _ _) (distinct_lengths_two lengths a b Ha Hb Hab)).
  reflexivity.
Qed.

(** C9: on an open connection with a statement open, [n] being the
    size asked for or, when that is [None] or 0, [arraysize]: when
    [more_to_fetch] is not [False] and the fetching and parsing succeed,
    [fetchmany] returns for [n = 1] the first parsed row itself, or
    [None] when there is no row, and for any other [n] the list of the
    rows it takes; when the fetching raises, [fetchmany] raises the
    same; when [more_to_fetch] is [False] it returns the empty list,
    for size 1 too; and [fetchone] is [fetchmany] of size 1. *)
Theorem fetch_shape (c : Connection) (size : option Z) (arraysize : Z)
    (more : pyval) :
  base_conn_open c = true ->
  attrs c !! "closed" = Some (PBool false) ->
  attrs c !! "arraysize" = Some (PInt arraysize) ->
  attrs c !! "open_statement" = Some (PBool true) ->
  attrs c !! "more_to_fetch" = Some more ->
  let n := match size with
           | Some k => if k =? 0 then arraysize else k
           | None => arraysize
           end in
  (more <> PBool false ->
   (forall c' rows,
      _fetch_and_parse L n (str "rows") c = (Ok tt, c') ->
      attrs c' !! "parsed_rows" = Some (PList rows) ->
      exists c'',
        fetchmany L size (str "rows") c
        = (Ok (if n =? 1
               then match rows with r :: _ => r | [] => PNone end
               else PList (slice rows (Some 0)
                                 (if n =? -1 then None else Some n))),
           c''))
   /\ (forall e c',
         _fetch_and_parse L n (str "rows") c = (Raise e, c') ->
         fetchmany L size (str "rows") c = (Raise e, c')))
  /\ (more = PBool false ->
      fetchmany L size (str "rows") c = (Ok (PList []), c))
  /\ fetchone L (str "rows") c = fetchmany L (Some 1) (str "rows") c.
Proof.
  intros Hb Hc Ha Ho Hm n.
  assert (E : match size with
              | Some n => if negb (n =? 0) then ret (PInt n)
                          else getattr "arraysize"
              | None => getattr "arraysize"
              end c = (Ok (PInt n), c)).
  { subst n. destruct size as [k|]; [destruct (k =? 0)|]; cbn [negb];
      first [reflexivity | apply getattr_Some; assumption]. }
  split; [|split].
  - intros Hne.
    assert (Hrun :
      fetchmany L size (str "rows") c
      = (let (r, s') := _fetch_and_parse L n (str "rows") c in
         match r with
         | Ok _ =>
           (parsed_rows <~ getattr "parsed_rows" ;;
            res <~ pure_ (py_slice parsed_rows (Some 0)
                                   (if negb (n =? -1) then Some n else None)) ;;
            (if negb (n =? -1) then
               parsed_rows <~ getattr "parsed_rows" ;;
               rest <~ pure_ (py_slice parsed_rows (Some n) None) ;;
               setattr "parsed_rows" rest
             else setattr "parsed_rows" (PList [])) ;;;
            if negb (n =? 1) then
              ret (if py_truthy res then res else PList [])
            else
              if py_truthy res then pure_ (py_getitem res (PInt 0))
              else ret PNone) s'
         | Raise e => (Raise e, s')
         end)).
    { unfold fetchmany. unfold mbind_ at 1. run E.
      unfold mbind_ at 1. run (_verify_open_ok c _ Hb Hc eq_refl).
      unfold mbind_ at 1. attr.
      assert (Hq := _verify_query_type_ok c _ Ho eq_refl).
      destruct more as [| [|] | | | | | | | | | |]; try congruence;
        unfold mbind_ at 1; run Hq; cbn [as_int]; unfold mbind_ at 1;
        change (pystr_eqb (str "rows") (str "rows")) with true;
        reflexivity. }
    split.
    + intros c' rows Hf Hp. rewrite Hrun, Hf. unfold mbind_.
      attr. cbn [pure_ py_slice]. tidy.
      destruct (Z.eqb_spec n (-1)) as [E1|E1]; cbn [negb].
      * assign. rewrite fetchmany_return. eexists.
        unfold returned. rewrite E1. reflexivity.
      * attr. cbn [py_slice]. tidy. assign. rewrite fetchmany_return.
        eexists. unfold returned.
        destruct (Z.eqb_spec n 1) as [->|_]; [|reflexivity].
        rewrite slice_first. reflexivity.
    + intros e c' Hf. rewrite Hrun, Hf. reflexivity.
  - intros ->. eapply fetchmany_exhausted; eauto.
  - unfold fetchone. change (pystr_eqb (str "rows") (str "rows")) with true.
    reflexivity.
Qed.

End WithLibrary.

(** The rows of the batch that C3 is refuted and witnessed on: one of
    three items and one of four. *)
Lemma inconsistent_batch_refused_scripted :
  execute (Script.lib Script.insert_peer) (str "insert into t values (?,?)")
          PNone (Script.session Script.insert_peer)
  = (Ok tt, Script.inserting)
  /\ executemany (Script.lib Script.insert_peer)
                 (str "insert into t values (?,?)") Script.uneven (str "rows")
                 PNone (Script.session Script.insert_peer)
     = (Raise (ProgrammingError
                 "Incosistent data sequences passed for inserting. Please use rows/columns of consistent length"),
        Script.inserting).
Proof.
  split; [vm_compute; reflexivity|].
  apply (inconsistent_batch_refused (Script.lib Script.insert_peer)
           (Script.session Script.insert_peer) Script.inserting _ _
           Script.uneven PNone (PTuple [PInt 1; PInt 2; PInt 3])
           [PTuple [PInt 1; PInt 2; PInt 3]; PTuple [PInt 1; PInt 2; PInt 3; PInt 4]]
           [3; 4] 3 4);
    first [vm_compute; reflexivity | cbn; tauto | lia].
Defined.

(** C3 as it is stated fails: the driver has sent the four messages that
    prepare and execute the statement when it refuses the batch. *)
Lemma inconsistent_batch_refused_after_sending :
  ~ (exists msg c',
       executemany (Script.lib Script.insert_peer)
                   (str "insert into t values (?,?)") Script.uneven (str "rows")
                   PNone (Script.session Script.insert_peer)
       = (Raise (ProgrammingError msg), c')
       /\ Transport.outbound (s c')
          = Transport.outbound (s (Script.session Script.insert_peer))).
Proof.
  intros (msg & c' & H & Ho).
  apply (f_equal snd) in H. cbn [snd] in H. subst c'.
  apply (f_equal (@length _)) in Ho. vm_compute in Ho. discriminate.
Qed.

Lemma bounded_text_round_trip_scripted :
  attrs Script.text_fetched !! "data_columns"
  = Some (PList [PList [PBytes Script.packed_ab]])
  /\ fst (_parse_fetched_cols (Script.lib Script.text_peer) Script.text_fetched)
     = Ok (PList [PList [PStr (str "ab")]]).
Proof.
  split; [vm_compute; reflexivity|].
  apply (bounded_text_round_trip (Script.lib Script.text_peer) 0
           Script.text_fetched (PInt 0));
    vm_compute; reflexivity.
Defined.

Lemma fetch_shape_scripted :
  base_conn_open Script.selected = true
  /\ (exists c'',
        fetchmany (Script.lib Script.select_peer) None (str "rows") Script.selected
        = (Ok (PTuple [PInt 7; PStr (str "ab")]), c'')).
Proof.
  split; [reflexivity|].
  destruct (fetch_shape (Script.lib Script.select_peer) Script.selected None 1
              (PBool true))
    as [H _]; try (vm_compute; reflexivity).
  destruct (H ltac:(discriminate)) as [H1 _].
  apply (H1 (Script.after
               (_fetch_and_parse (Script.lib Script.select_peer) 1 (str "rows"))
               Script.selected)
            [PTuple [PInt 7; PStr (str "ab")]; PTuple [PNone; PStr (str "cd")]]);
    vm_compute; reflexivity.
Defined.


End EngineFacts.

(** ** Connecting *)

Module ConnectFacts.
Import Py.

(** C10: [connect] raises for a number of reconnection attempts that is
    not an integer or is negative, and for an interval that is not an
    integer; an interval that is an integer, negative or not, passes the
    second check, whose test of the sign is on the attempts, and the
    connection is then made with it. *)
Theorem connect_validation (L : library) (class_flag : bool)
    (host port database username password : pyval) (clustered use_ssl : bool)
    (service reconnect_attempts reconnect_interval : pyval) :
  let call := connect L class_flag host port database username password
                      clustered use_ssl service reconnect_attempts
                      reconnect_interval in
  (isinstance_int reconnect_attempts = false ->
   call = Raise (Exception_ "reconnect attempts should be a positive integer, got : "))
  /\ (forall n, as_int reconnect_attempts = Some n -> n < 0 ->
      call = Raise (Exception_ "reconnect attempts should be a positive integer, got : "))
  /\ (forall n, as_int reconnect_attempts = Some n -> 0 <= n ->
      isinstance_int reconnect_interval = false ->
      call = Raise (Exception_ "reconnect interval should be a positive integer, got : "))
  /\ (forall n k, as_int reconnect_attempts = Some n -> 0 <= n ->
      reconnect_interval = PInt k ->
      call
      = (conn <- Engine.new_Connection L class_flag host port clustered use_ssl
                                       true reconnect_attempts (PInt k) ;;
         match Engine.connect_database L database username password service
                                       conn with
         | (Ok _, conn) => Ok conn
         | (Raise e, _) => Raise e
         end))
  /\ (exists conn,
        Script.connected Script.insert_peer (PInt (-5)) = Ok conn
        /\ Engine.attrs conn !! "reconnect_interval" = Some (PInt (-5))).
Proof.
  intros call. subst call. unfold connect. repeat split.
  - intros H. rewrite H. reflexivity.
  - intros n Hn Hneg. unfold isinstance_int. rewrite Hn.
    rewrite (proj2 (Z.ltb_lt _ _) Hneg). reflexivity.
  - intros n Hn Hpos Hi. unfold isinstance_int at 1. rewrite Hn.
    destruct (Z.ltb_spec n 0); [lia|]. rewrite Hi. reflexivity.
  - intros n k Hn Hpos ->. unfold isinstance_int. rewrite Hn.
    destruct (Z.ltb_spec n 0); [lia|]. reflexivity.
  - eexists. split; vm_compute; reflexivity.
Qed.

Lemma connect_validation_scripted :
  Script.connected Script.insert_peer (PStr (str "soon"))
  = Raise (Exception_ "reconnect interval should be a positive integer, got : ").
Proof.
  exact (proj1 (proj2 (proj2
           (connect_validation (Script.lib Script.insert_peer) false
              (PStr (str "127.0.0.1")) (PInt 5000) (PStr (str "master"))
              (PStr (str "sqream")) (PStr (str "sqream")) false false
              (PStr (str "sqream")) (PInt 3) (PStr (str "soon")))))
           3 eq_refl ltac:(lia) eq_refl).
Defined.

End ConnectFacts.

(** ** The bound of the fetch loop *)

Module LoopFacts.
Import Py Engine.

(** *** Methods that leave the socket alone *)

Lemma off_line_ret {A} (a : A) : off_line (ret a).
Proof. intros c. reflexivity. Qed.

Lemma off_line_raise {A} e : off_line (@raise Connection A e).
Proof. intros c. reflexivity. Qed.

Lemma off_line_pure {A} (r : result A) : off_line (pure_ r).
Proof. intros c. reflexivity. Qed.

Lemma off_line_getattr name : off_line (getattr name).
Proof. intros c. unfold getattr. destruct (attrs c !! name); reflexivity. Qed.

Lemma off_line_setattr name v : off_line (setattr name v).
Proof. intros c. reflexivity. Qed.

Lemma off_line_bind {A B} (m : M Connection A) (k : A -> M Connection B) :
  off_line m -> (forall a, off_line (k a)) -> off_line (mbind_ m k).
Proof.
  intros Hm Hk c. unfold mbind_. specialize (Hm c).
  destruct (m c) as [[a|e] c']; cbn [snd] in *; [|assumption].
  rewrite (Hk a c'). assumption.
Qed.

Lemma off_line_for_each {A} (l : list A) body :
  (forall x, off_line (body x)) -> off_line (for_each l body).
Proof.
  intros H. induction l as [|x l IH]; cbn [for_each].
  - apply off_line_ret.
  - apply off_line_bind; [apply H | intros _; exact IH].
Qed.

Lemma off_line_map_each {A B} (l : list A) (body : A -> M Connection B) :
  (forall x, off_line (body x)) -> off_line (map_each l body).
Proof.
  intros H. induction l as [|x l IH]; cbn [map_each].
  - apply off_line_ret.
  - apply off_line_bind; [apply H | intros y].
    apply off_line_bind; [exact IH | intros r; apply off_line_ret].
Qed.

(** The rule that fits a method made of the primitives above, matches
    and conditionals. *)
Ltac off_line :=
  repeat first
    [ apply off_line_ret | apply off_line_raise | apply off_line_pure
    | apply off_line_getattr | apply off_line_setattr
    | apply off_line_bind; [|intros ?]
    | apply off_line_for_each; intros ?
    | apply off_line_map_each; intros ?
    | match goal with
      | |- off_line (match ?x with _ => _ end) => destruct x
      | |- off_line (let '(_, _) := ?x in _) => destruct x
      end ].

(** *** Methods that read from the socket *)

Lemma reads_off_line {A} (m : M Connection A) : off_line m -> reads m.
Proof. intros H c. unfold left_to_read. rewrite (H c). lia. Qed.

Lemma reads_bind {A B} (m : M Connection A) (k : A -> M Connection B) :
  reads m -> (forall a, reads (k a)) -> reads (mbind_ m k).
Proof.
  intros Hm Hk c. unfold mbind_. specialize (Hm c).
  destruct (m c) as [[a|e] c']; cbn [snd] in *; [|assumption].
  specialize (Hk a c'). lia.
Qed.

Lemma reads_for_each {A} (l : list A) body :
  (forall x, reads (body x)) -> reads (for_each l body).
Proof.
  intros H. induction l as [|x l IH]; cbn [for_each].
  - apply reads_off_line, off_line_ret.
  - apply reads_bind; [apply H | intros _; exact IH].
Qed.

Lemma reads_map_each {A B} (l : list A) (body : A -> M Connection B) :
  (forall x, reads (body x)) -> reads (map_each l body).
Proof.
  intros H. induction l as [|x l IH]; cbn [map_each].
  - apply reads_off_line, off_line_ret.
  - apply reads_bind; [apply H | intros y].
    apply reads_bind; [exact IH | intros r; apply reads_off_line, off_line_ret].
Qed.

Lemma reads_fold_each {A B} (l : list A) (acc : B) body :
  (forall b x, reads (body b x)) -> reads (fold_each l acc body).
Proof.
  intros H. revert acc. induction l as [|x l IH]; intros acc; cbn [fold_each].
  - apply reads_off_line, off_line_ret.
  - apply reads_bind; [apply H | intros y; apply IH].
Qed.

Lemma reads_on_socket {A} (m : M Transport.SQSocket A) :
  (forall s0, (length (Transport.inbound (snd (m s0)))
               <= length (Transport.inbound s0))%nat) ->
  reads (on_socket m).
Proof.
  intros H c. unfold on_socket, zoom, left_to_read. specialize (H (s c)).
  destruct (m (s c)) as [r t]. exact H.
Qed.

Lemma receive_shrinks n t s0 :
  (length (Transport.inbound (snd (Transport.receive n t s0)))
   <= length (Transport.inbound s0))%nat.
Proof.
  unfold Transport.receive.
  destruct (n <? 0); [cbn; lia|].
  cbv zeta.
  repeat match goal with
         | |- context [if ?b then _ else _] => destruct b
         end;
    cbn [snd Transport.inbound Transport.set_inbound Transport.set_timeout
         length];
    rewrite ?length_skipn; lia.
Qed.

(** A read of ten bytes that succeeds takes ten bytes. *)
Lemma receive_header s0 b s1 :
  Transport.receive 10 PNone s0 = (Ok b, s1) ->
  (length (Transport.inbound s1) + 10 = length (Transport.inbound s0))%nat.
Proof.
  unfold Transport.receive. cbn [py_truthy].
  change (10 <? 0) with false. change (10 =? 0) with false. cbv beta iota.
  destruct (Transport.closed s0); [discriminate|].
  destruct (Z.leb_spec 10 (len (Transport.inbound s0))) as [H|H];
    [|discriminate].
  intros [= _ <-]. cbn [Transport.inbound Transport.set_inbound].
  rewrite length_skipn. unfold len in H. lia.
Qed.

Lemma send_shrinks data s0 :
  (length (Transport.inbound (snd (Transport.send data s0)))
   <= length (Transport.inbound s0))%nat.
Proof. unfold Transport.send. destruct (Transport.closed s0); cbn; lia. Qed.

Section WithLibrary.
Context (L : library).

Lemma get_response_shrinks t s0 :
  (length (Transport.inbound (snd (Transport.get_response L t s0)))
   <= length (Transport.inbound s0))%nat.
Proof.
  unfold Transport.get_response, mbind_.
  pose proof (receive_shrinks 10 PNone s0) as H.
  destruct (Transport.receive 10 PNone s0) as [[header|e] s1]; cbn [snd] in *;
    [|assumption].
  unfold pure_. destruct (index header 0) as [v|e]; [|assumption].
  destruct (negb _); [assumption|].
  destruct (Struct.unpack L "q" _) as [[]|e]; try assumption.
  pose proof (receive_shrinks n PNone s1) as H'.
  destruct (Transport.receive n PNone s1) as [[data|e] s2]; cbn [snd] in *;
    [|lia].
  destruct t; [destruct (decode_utf8 data)|]; cbn [snd ret]; lia.
Qed.

(** A response that is read has taken its header off what was left. *)
Lemma get_response_progress t s0 v s1 :
  Transport.get_response L t s0 = (Ok v, s1) ->
  (length (Transport.inbound s1) < length (Transport.inbound s0))%nat.
Proof.
  unfold Transport.get_response, mbind_.
  destruct (Transport.receive 10 PNone s0) as [[header|e] s'] eqn:E;
    [|discriminate].
  apply receive_header in E.
  unfold pure_. destruct (index header 0) as [x|e]; [|discriminate].
  destruct (negb _); [discriminate|].
  destruct (Struct.unpack L "q" _) as [[]|e]; try discriminate.
  pose proof (receive_shrinks n PNone s') as H'.
  destruct (Transport.receive n PNone s') as [[data|e] s2]; cbn [snd] in *;
    [|discriminate].
  destruct t; [destruct (decode_utf8 data)|]; cbn [ret]; intros [= _ <-]; lia.
Qed.

Ltac reads :=
  repeat first
    [ apply reads_off_line; solve [off_line]
    | apply reads_bind; [|intros ?]
    | apply reads_for_each; intros ?
    | apply reads_map_each; intros ?
    | apply reads_fold_each; intros ? ?
    | apply reads_on_socket; intros ?;
      first [apply receive_shrinks | apply send_shrinks
            | apply get_response_shrinks]
    | match goal with
      | |- reads (match ?x with _ => _ end) => destruct x
      end ].

Lemma reads__send_string cmd g t : reads (_send_string L cmd g t).
Proof. unfold _send_string. reads. Qed.

Lemma reads_close_statement : reads (close_statement L).
Proof.
  unfold close_statement. apply reads_bind; [apply reads__send_string|].
  intros _. reads.
Qed.

Lemma _send_string_progress cmd t c v c' :
  _send_string L cmd true t c = (Ok v, c') ->
  (left_to_read c' < left_to_read c)%nat.
Proof.
  unfold _send_string, mbind_, pure_, on_socket, zoom, left_to_read.
  destruct (Transport.generate_message_header _ _ _ _); [|discriminate].
  destruct (encode_utf8 cmd); [|discriminate].
  pose proof (send_shrinks (a ++ a0) (s c)) as Hs.
  destruct (Transport.send _ _) as [[n|e] s1]; [|discriminate].
  cbn [s set_s snd] in *.
  destruct (Transport.get_response L t s1) as [[x|e] s2] eqn:E;
    [|discriminate].
  apply get_response_progress in E. intros [= _ <-]. cbn [s set_s]. lia.
Qed.

Lemma off_line_append_attr name v : off_line (append_attr name v).
Proof. unfold append_attr. off_line. Qed.

Lemma off_line_parse_column idx raw : off_line (parse_column L idx raw).
Proof. unfold parse_column. off_line. Qed.

Lemma off_line__parse_fetched_cols : off_line (_parse_fetched_cols L).
Proof.
  unfold _parse_fetched_cols. off_line.
Qed.

Lemma reads_sort_column unsorted desc : reads (sort_column L unsorted desc).
Proof.
  unfold sort_column. destruct desc as [[type_tup nullable] tvc]. reads.
Qed.

(** A fetch that returns has read the header of its response. *)
Lemma _fetch_progress c v c' :
  _fetch L c = (Ok v, c') -> (left_to_read c' < left_to_read c)%nat.
Proof.
  unfold _fetch. unfold mbind_ at 1.
  destruct (_send_string L _ true true c) as [[r|e] c1] eqn:E; [|discriminate].
  apply _send_string_progress in E.
  match goal with
  | |- ?k c1 = _ -> _ =>
    assert (Hr : reads k)
  end.
  { reads; first [apply reads_close_statement | apply reads_sort_column]. }
  specialize (Hr c1). intros H. rewrite H in Hr. cbn [snd] in Hr. lia.
Qed.

Lemma fetch_and_parse_step_progress c c' :
  fetch_and_parse_step L c = (Ok tt, c') ->
  (left_to_read c' < left_to_read c)%nat.
Proof.
  unfold fetch_and_parse_step. unfold mbind_ at 1.
  destruct (_fetch L c) as [[v|e] c1] eqn:E; [|discriminate].
  apply _fetch_progress in E.
  match goal with
  | |- ?k c1 = _ -> _ =>
    assert (Hr : off_line k)
  end.
  { off_line; apply off_line__parse_fetched_cols. }
  specialize (Hr c1). intros H. rewrite H in Hr. cbn [snd] in Hr.
  unfold left_to_read in *. rewrite Hr. assumption.
Qed.

(** The bound of the loop of [_fetch_and_parse] is never met: with
    more turns allowed than bytes are left to read, the loop does what
    it does with any larger number of turns. *)
Lemma fetch_and_parse_loop_bound fuel fuel' requested_row_amount c :
  (left_to_read c < fuel)%nat -> (fuel <= fuel')%nat ->
  fetch_and_parse_loop L fuel requested_row_amount c
  = fetch_and_parse_loop L fuel' requested_row_amount c.
Proof.
  revert fuel' c. induction fuel as [|fuel IH]; intros fuel' c Hc Hf; [lia|].
  destruct fuel' as [|fuel']; [lia|].
  cbn [fetch_and_parse_loop]. unfold mbind_.
  pose proof (off_line_getattr "parsed_rows" c) as H0.
  destruct (getattr "parsed_rows" c) as [[v|e] c0]; [|reflexivity].
  cbn [snd] in H0.
  assert (H1 : forall r c1, pure_ (py_len v) c0 = (r, c1) -> c1 = c0).
  { unfold pure_. intros r c1. destruct (py_len v); intros [= _ <-];
      reflexivity. }
  destruct (pure_ (py_len v) c0) as [[n|e] c1]; [|reflexivity].
  rewrite (H1 _ _ eq_refl). clear H1 c1.
  destruct ((n <? requested_row_amount) || (requested_row_amount =? -1));
    [|reflexivity].
  pose proof (off_line_getattr "more_to_fetch" c0) as H2.
  destruct (getattr "more_to_fetch" c0) as [[m|e] c2]; [|reflexivity].
  cbn [snd] in H2.
  destruct (py_truthy m); [|reflexivity].
  destruct (fetch_and_parse_step L c2) as [[[]|e] c3] eqn:E; [|reflexivity].
  apply fetch_and_parse_step_progress in E.
  apply IH; [|lia].
  unfold left_to_read in *. rewrite H2, H0 in E. lia.
Qed.

(** So [_fetch_and_parse], which allows one turn more than the bytes
    left, runs the loop of the source as far as it goes. *)
Lemma _fetch_and_parse_bound fuel requested_row_amount c :
  (left_to_read c < fuel)%nat ->
  _fetch_and_parse L requested_row_amount (str "rows") c
  = fetch_and_parse_loop L fuel requested_row_amount c.
Proof.
  intros H. unfold _fetch_and_parse.
  change (pystr_eqb (str "rows") (str "rows")) with true. cbv beta iota.
  unfold mbind_ at 1, get.
  apply fetch_and_parse_loop_bound; unfold left_to_read in *; lia.
Qed.

End WithLibrary.

End LoopFacts.
